(** * hjmpy: forward curves, volatility models and the HJM orchestrator

    A shallow embedding of the Python package [hjmpy]
    (forwardCurve/forwardCurve.py, market/market.py,
    volatilityModel/{volatilityModel,exponential,multiFactor}.py, hjmModel.py).

    Conventions of the embedding.
    - A Python [float] / [np.float64] is idealised as a real number of [R];
      [np.log] is [ln], [np.exp] is [exp].  NaN, infinities and rounding are
      not represented: a statement about a computed value is a statement
      about the exact real value of the same expression.
    - A one-dimensional [np.ndarray] is a [list R]; a two-dimensional one is
      the list of its rows.  The package never writes to an array in place
      ([np.log], [np.diff], boolean indexing and [np.column_stack] return
      fresh arrays), so arrays are values.
    - A Python exception is a constructor of [exn]; code that can raise
      returns a [result].  A method that assigns attributes of its receiver,
      or whose effect on the receiver is the subject of a statement, is a
      function [Method S A], from the receiver before the call to the
      receiver after it and the outcome; a method that only computes from
      the attributes ([get_forward], [log_returns], [sigma], [get_curve]) is
      a function of the receiver.
    - A Python [dict] is an association list in insertion order.
    - The routines of SciPy and scikit-learn the package calls are either
      modelled after the library ([interp1d], [np.diff], [np.column_stack])
      or taken as parameters ([curve_fit], [PCA.fit]). *)

From Stdlib Require Import String.
From Stdlib Require Import Reals Lra Lia ZArith List Bool Arith.
From Stdlib Require Import Sorted Permutation.
Import ListNotations.

Open Scope R_scope.

(** ** Exceptions and outcomes *)

Inductive exn : Set :=
| KeyError
| AttributeError
| IndexError
| ValueError
| TypeError
| NotImplementedError.

Inductive result (A : Type) : Type :=
| Ok (a : A)
| Raise (e : exn).

Arguments Ok {A} a.
Arguments Raise {A} e.

Definition rbind {A B : Type} (r : result A) (k : A -> result B) : result B :=
  match r with
  | Ok a => k a
  | Raise e => Raise e
  end.

Notation "x <-? r ;; k" := (rbind r (fun x => k))
  (at level 61, r at next level, right associativity).

Definition raises {A : Type} (r : result A) : Prop :=
  exists e, r = Raise e.

(** A method call: receiver before, receiver after and outcome.  What was
    assigned before an exception is raised stays assigned. *)
Definition Method (S A : Type) : Type := S -> S * result A.

Definition ret {S A : Type} (a : A) : Method S A := fun s => (s, Ok a).

Definition throw {S A : Type} (e : exn) : Method S A := fun s => (s, Raise e).

Definition bind {S A B : Type} (m : Method S A) (k : A -> Method S B)
  : Method S B :=
  fun s =>
    match m s with
    | (s', Ok a) => k a s'
    | (s', Raise e) => (s', Raise e)
    end.

(** Reading an attribute of the receiver. *)
Definition attr {S A : Type} (f : S -> A) : Method S A := fun s => (s, Ok (f s)).

(** Running a computation that does not touch the receiver. *)
Definition lift {S A : Type} (r : result A) : Method S A := fun s => (s, r).

Notation "x <- m ;; k" := (bind m (fun x => k))
  (at level 61, m at next level, right associativity).

(** ** Python and NumPy primitives *)

(** [a <= b] on floats, as a boolean. *)
Definition Rleb (a b : R) : bool := if Rle_dec a b then true else false.

(** [dict]: association list in insertion order, keys unique. *)
Module PyDict.

Definition dict (V : Type) : Type := list (string * V).

Fixpoint get {V : Type} (d : dict V) (k : string) : option V :=
  match d with
  | [] => None
  | (k', v) :: d' => if String.eqb k' k then Some v else get d' k
  end.

(** [d[k]] *)
Definition getitem {V : Type} (d : dict V) (k : string) : result V :=
  match get d k with
  | Some v => Ok v
  | None => Raise KeyError
  end.

(** [d[k] = v]: an existing key keeps its position, a new one goes last. *)
Fixpoint setitem {V : Type} (d : dict V) (k : string) (v : V) : dict V :=
  match d with
  | [] => [(k, v)]
  | (k', v') :: d' =>
      if String.eqb k' k then (k, v) :: d' else (k', v') :: setitem d' k v
  end.

Definition values {V : Type} (d : dict V) : list V := map snd d.

Definition keys {V : Type} (d : dict V) : list string := map fst d.

End PyDict.

Module Np.

(** [np.log], for positive entries: at 0 and below the program gives
    [-inf] or [nan], which [R] does not hold. *)
Definition log (a : list R) : list R := map ln a.

(** [np.diff]: first differences, empty below two entries. *)
Fixpoint diff (a : list R) : list R :=
  match a with
  | x :: (y :: _) as t => (y - x) :: diff t
  | _ => []
  end.

(** [np.sum] *)
Definition sum (a : list R) : R := fold_right Rplus 0 a.

(** [np.cumsum] *)
Fixpoint cumsum_from (acc : R) (a : list R) : list R :=
  match a with
  | [] => []
  | x :: t => (acc + x) :: cumsum_from (acc + x) t
  end.

Definition cumsum (a : list R) : list R := cumsum_from 0 a.

(** [a[i]] for an integer [i]: a negative index counts from the end. *)
Definition getitem (a : list R) (i : Z) : R :=
  nth (Z.to_nat (if (i <? 0)%Z then i + Z.of_nat (length a) else i)) a 0.

(** [a[-1]] *)
Definition last_item (a : list R) : result R :=
  match a with
  | [] => Raise IndexError
  | _ => Ok (last a 0)
  end.

(** [a[mask]] for a boolean mask: the shapes must agree. *)
Fixpoint select (a : list R) (mask : list bool) : list R :=
  match a, mask with
  | x :: a', b :: mask' => if b then x :: select a' mask' else select a' mask'
  | _, _ => []
  end.

Definition bool_index (a : list R) (mask : list bool) : result (list R) :=
  if (length mask =? length a)%nat then Ok (select a mask) else Raise IndexError.

(** [a[start:]] for an integer [start]. *)
Definition slice_from (a : list R) (start : Z) : list R :=
  let n := Z.of_nat (length a) in
  let s := if (start <? 0)%Z then Z.max (start + n) 0 else Z.min start n in
  skipn (Z.to_nat s) a.

(** [np.column_stack] of one-dimensional arrays: the matrix whose columns
    they are, as the list of its rows. *)
Definition column_stack (cols : list (list R)) : result (list (list R)) :=
  match cols with
  | [] => Raise ValueError
  | c0 :: _ =>
      if forallb (fun c => (length c =? length c0)%nat) cols
      then Ok (map (fun i => map (fun c => nth i c 0) cols)
                 (seq 0 (length c0)))
      else Raise ValueError
  end.

(** [np.clip] *)
Definition clip (i lo hi : Z) : Z := Z.min (Z.max i lo) hi.

(** [np.searchsorted(a, v)] on a sorted [a]: the number of entries below [v]. *)
Fixpoint searchsorted (a : list R) (v : R) : nat :=
  match a with
  | [] => 0
  | h :: t => if Rlt_dec h v then S (searchsorted t v) else 0
  end.

End Np.

(** ** [scipy.interpolate.interp1d(x, y, kind='linear', fill_value="extrapolate")] *)

Module Interp1d.

Record t : Type := mk { x : list R; y : list R }.

(** The fewest entries the constructor accepts for [kind='linear']: below
    it, "x and y arrays must have at least 1 entries". *)
Definition minval : nat := 1.

(** Stable sort of the knots by abscissa ([np.argsort(x, kind="mergesort")]
    followed by [x[ind]], [np.take(y, ind)]): knots of equal abscissa keep
    their stored order. *)
Fixpoint insert (p : R * R) (l : list (R * R)) : list (R * R) :=
  match l with
  | [] => [p]
  | q :: l' => if Rle_dec (fst p) (fst q) then p :: l else q :: insert p l'
  end.

Definition sort (l : list (R * R)) : list (R * R) := fold_right insert [] l.

Definition init (xs ys : list R) : result t :=
  if negb (length ys =? length xs)%nat then Raise ValueError
  else
    let s := sort (combine xs ys) in
    if (length xs <? minval)%nat then Raise ValueError
    else Ok {| x := map fst s; y := map snd s |}.

(** Evaluation: the segment is found by [searchsorted] and clipped, so the
    first and last segments extend beyond the stored range.  The value is
    the program's for at least two knots of distinct abscissae; with one
    knot or repeated abscissae the program divides by zero and gives [nan]
    or an infinity, which [R] does not hold. *)
Definition call (f : t) (x_new : R) : R :=
  let hi := Np.clip (Z.of_nat (Np.searchsorted (x f) x_new)) 1
              (Z.of_nat (length (x f)) - 1) in
  let lo := (hi - 1)%Z in
  let x_lo := Np.getitem (x f) lo in
  let x_hi := Np.getitem (x f) hi in
  let y_lo := Np.getitem (y f) lo in
  let y_hi := Np.getitem (y f) hi in
  let slope := (y_hi - y_lo) / (x_hi - x_lo) in
  slope * (x_new - x_lo) + y_lo.

End Interp1d.

(** ** forwardCurve/forwardCurve.py *)

Module ForwardCurve.

Record t : Type := mk { dates : list R; prices : list R; _interp : Interp1d.t }.

Definition __init__ (dates prices : list R) : result t :=
  i <-? Interp1d.init dates (Np.log prices) ;;
  Ok {| dates := dates; prices := prices; _interp := i |}.

Definition get_forward (self : t) (T : R) : R :=
  let logp := Interp1d.call (_interp self) T in
  exp logp.

Definition log_returns (self : t) : list R :=
  Np.diff (Np.log (prices self)).

Definition slice (start end_ : R) : Method t t :=
  d <- attr dates ;;
  p <- attr prices ;;
  let mask := map (fun x => Rleb start x && Rleb x end_) d in
  d' <- lift (Np.bool_index d mask) ;;
  p' <- lift (Np.bool_index p mask) ;;
  lift (__init__ d' p').

End ForwardCurve.

(** ** market/market.py *)

Module Market.

Record t : Type := mk {
  name : string;
  region : option string;
  commodity : string;
  curves : PyDict.dict ForwardCurve.t
}.

Definition __init__ (name : string) (region : option string)
  (commodity : string) : t :=
  {| name := name; region := region; commodity := commodity; curves := [] |}.

Definition add_forward_curve (curve_name : string)
  (forward_curve : ForwardCurve.t) : Method t unit :=
  fun self =>
    ({| name := name self; region := region self;
        commodity := commodity self;
        curves := PyDict.setitem (curves self) curve_name forward_curve |},
     Ok tt).

(** [self.curves.get(curve_name)]: [None] for an unknown name. *)
Definition get_curve (self : t) (curve_name : string)
  : option ForwardCurve.t :=
  PyDict.get (curves self) curve_name.

Definition list_curves (self : t) : list string := PyDict.keys (curves self).

End Market.

(** Attribute access on a value that may be [None]. *)
Definition deref {A : Type} (o : option A) : result A :=
  match o with
  | Some a => Ok a
  | None => Raise AttributeError
  end.

(** ** volatilityModel/volatilityModel.py *)

Module VolatilityModel.

(** What [sigma] hands back: a float, or an [np.ndarray] of factors. *)
Inductive sigma_value : Type :=
| Scalar (s : R)
| Vector (v : list R).

(** A positional argument of [calibrate]. *)
Inductive ndarray : Type :=
| Arr1 (a : list R)
| Arr2 (m : list (list R)).

(** The interface, with the two attributes [HJMModel.calibrate] reads. *)
Class Model (V : Type) : Type := {
  sigma : V -> R -> R -> result sigma_value;
  calibrate : list ndarray -> Method V unit;
  n_factors : V -> result Z;
  explained_variance_ : V -> result (option (list R))
}.

(** The abstract class itself. *)
Inductive abstract : Set := Abstract.

#[global] Instance abstract_Model : Model abstract := {|
  sigma := fun _ _ _ => Raise NotImplementedError;
  calibrate := fun _ => throw NotImplementedError;
  n_factors := fun _ => Raise AttributeError;
  explained_variance_ := fun _ => Raise AttributeError
|}.

End VolatilityModel.

(** ** volatilityModel/exponential.py *)

Module ExponentialVolatilityModel.

Record t : Type := mk { gamma : R; k : R }.

Definition __init__ (gamma k : R) : t := {| gamma := gamma; k := k |}.

Definition sigma (self : t) (t T : R) : R :=
  let tau := T - t in
  gamma self * exp (- k self * tau).

Section Calibrate.

(** [scipy.optimize.curve_fit(model, xdata, ydata, p0)], first component. *)
Variable curve_fit :
  (R -> R -> R -> R) -> VolatilityModel.ndarray -> VolatilityModel.ndarray ->
  R * R -> result (R * R).

Definition calibrate (time_to_maturities vols : VolatilityModel.ndarray)
  : Method t unit :=
  fun self =>
    let model := fun tau gamma k : R => gamma * exp (- k * tau) in
    match curve_fit model time_to_maturities vols (gamma self, k self) with
    | Ok (g, k') => ({| gamma := g; k := k' |}, Ok tt)
    | Raise e => (self, Raise e)
    end.

#[export] Instance Model : VolatilityModel.Model t := {|
  VolatilityModel.sigma := fun self t T =>
    Ok (VolatilityModel.Scalar (sigma self t T));
  VolatilityModel.calibrate := fun args =>
    match args with
    | [time_to_maturities; vols] => calibrate time_to_maturities vols
    | _ => throw TypeError
    end;
  VolatilityModel.n_factors := fun _ => Raise AttributeError;
  VolatilityModel.explained_variance_ := fun _ => Raise AttributeError
|}.

End Calibrate.

End ExponentialVolatilityModel.

(** ** volatilityModel/multiFactor.py *)

(** [sklearn.decomposition.PCA]: the fitted attributes exist after [fit]. *)
Module PCA.

Record t : Type := mk {
  n_components : Z;
  components_ : option (list (list R));
  explained_variance_ratio_ : option (list R)
}.

Definition __init__ (n_components : Z) : t :=
  {| n_components := n_components; components_ := None;
     explained_variance_ratio_ := None |}.

Section Fit.

(** The decomposition: loadings and variance ratios, or an exception. *)
Variable decompose :
  Z -> VolatilityModel.ndarray -> result (list (list R) * list R).

Definition fit (X : VolatilityModel.ndarray) : Method t unit :=
  fun self =>
    match decompose (n_components self) X with
    | Ok (c, r) =>
        ({| n_components := n_components self; components_ := Some c;
            explained_variance_ratio_ := Some r |}, Ok tt)
    | Raise e => (self, Raise e)
    end.

End Fit.

End PCA.

Module MultiFactorVolatilityModel.

Record t : Type := mk {
  n_factors : Z;
  pca : PCA.t;
  components_ : option (list (list R));
  explained_variance_ : option (list R)
}.

Definition __init__ (n_factors : Z) : t :=
  {| n_factors := n_factors; pca := PCA.__init__ n_factors;
     components_ := None; explained_variance_ := None |}.

(** [np.array([np.exp(-0.5 * tau)] * self.n_factors)] *)
Definition sigma (self : t) (t T : R) : list R :=
  let tau := T - t in
  repeat (exp (- 0.5 * tau)) (Z.to_nat (n_factors self)).

Section Calibrate.

Variable decompose :
  Z -> VolatilityModel.ndarray -> result (list (list R) * list R).

Definition calibrate (log_return_matrix : VolatilityModel.ndarray)
  : Method t unit :=
  fun self =>
    match PCA.fit decompose log_return_matrix (pca self) with
    | (pca', Ok _) =>
        ({| n_factors := n_factors self; pca := pca';
            components_ := PCA.components_ pca';
            explained_variance_ := PCA.explained_variance_ratio_ pca' |},
         Ok tt)
    | (pca', Raise e) =>
        ({| n_factors := n_factors self; pca := pca';
            components_ := components_ self;
            explained_variance_ := explained_variance_ self |}, Raise e)
    end.

#[export] Instance Model : VolatilityModel.Model t := {|
  VolatilityModel.sigma := fun self t T =>
    Ok (VolatilityModel.Vector (sigma self t T));
  VolatilityModel.calibrate := fun args =>
    match args with
    | [log_return_matrix] => calibrate log_return_matrix
    | _ => throw TypeError
    end;
  VolatilityModel.n_factors := fun self => Ok (n_factors self);
  VolatilityModel.explained_variance_ := fun self =>
    Ok (explained_variance_ self)
|}.

End Calibrate.

End MultiFactorVolatilityModel.

(** ** hjmModel.py *)

Module HJMModel.

Section WithVolatilityModel.

Context {V : Type} {VM : VolatilityModel.Model V}.

Record t : Type := mk {
  vol_model : V;
  markets : PyDict.dict Market.t
}.

Definition __init__ (volatility_model : V) : t :=
  {| vol_model := volatility_model; markets := [] |}.

Definition add_market (market : Market.t) : Method t unit :=
  fun self =>
    ({| vol_model := vol_model self;
        markets := PyDict.setitem (markets self) (Market.name market) market |},
     Ok tt).

(** A call of a method of [self.vol_model]. *)
Definition on_vol_model {A : Type} (m : Method V A) : Method t A :=
  fun self =>
    match m (vol_model self) with
    | (v', r) => ({| vol_model := v'; markets := markets self |}, r)
    end.

(** The two nested loops of [calibrate], filling [returns]. *)
Definition collect_returns (ms : PyDict.dict Market.t) : list (list R) :=
  fold_left
    (fun returns market =>
       fold_left
         (fun returns curve =>
            if (1 <? length (ForwardCurve.prices curve))%nat
            then returns ++ [ForwardCurve.log_returns curve]
            else returns)
         (PyDict.values (Market.curves market)) returns)
    (PyDict.values ms) [].

(** [min(...)] of a generator of lengths. *)
Definition py_min (l : list nat) : result nat :=
  match l with
  | [] => Raise ValueError
  | h :: t => Ok (fold_left Nat.min t h)
  end.

(** What the call leaves on standard output: the number of factors and the
    explained variance. *)
Definition printed : Type := (Z * option (list R))%type.

Definition calibrate : Method t printed :=
  ms <- attr markets ;;
  let returns := collect_returns ms in
  min_len <- lift (py_min (map (@length R) returns)) ;;
  mat <- lift (Np.column_stack
                 (map (fun r => Np.slice_from r (- Z.of_nat min_len)) returns)) ;;
  _ <- on_vol_model (VolatilityModel.calibrate [VolatilityModel.Arr2 mat]) ;;
  v <- attr vol_model ;;
  n <- lift (VolatilityModel.n_factors v) ;;
  ev <- lift (VolatilityModel.explained_variance_ v) ;;
  ret (n, ev).

Definition forward_dynamics (market_name curve_name : string) (t0 t1 : R)
  : Method t R :=
  ms <- attr markets ;;
  market <- lift (PyDict.getitem ms market_name) ;;
  let curve := Market.get_curve market curve_name in
  c <- lift (deref curve) ;;
  T <- lift (Np.last_item (ForwardCurve.dates c)) ;;
  v <- attr vol_model ;;
  sigma <- lift (VolatilityModel.sigma v t0 T) ;;
  let var :=
    match sigma with
    | VolatilityModel.Vector s => Np.sum (map (fun x => x ^ 2) s) * (t1 - t0)
    | VolatilityModel.Scalar s => s ^ 2 * (t1 - t0)
    end in
  let F0 := ForwardCurve.get_forward c T in
  let drift := - 0.5 * var in
  let F1_expected := F0 * exp drift in
  ret F1_expected.

Definition price_forward (market_name curve_name : string)
  : R -> Method t R := fun t =>
  ms <- attr markets ;;
  market <- lift (PyDict.getitem ms market_name) ;;
  let curve := Market.get_curve market curve_name in
  c <- lift (deref curve) ;;
  T <- lift (Np.last_item (ForwardCurve.dates c)) ;;
  ret (ForwardCurve.get_forward c T).

End WithVolatilityModel.

Arguments t V : clear implicits.

End HJMModel.

(** * Vocabulary of the statements *)

(** Maturities stored in strictly increasing or strictly decreasing order. *)
Definition strictly_monotonic (l : list R) : Prop :=
  StronglySorted Rlt l \/ StronglySorted Rgt l.

(** The test [start <= x <= end] of [slice]. *)
Definition in_range (start end_ x : R) : bool := Rleb start x && Rleb x end_.

(** The points of a ladder that lie in [[start, end]], in stored order. *)
Definition captured (start end_ : R) (d p : list R) : list (R * R) :=
  filter (fun q => in_range start end_ (fst q)) (combine d p).

(** Order of the knots of the interpolant. *)
Definition key_le (p q : R * R) : Prop := fst p <= fst q.

(** The curve object [ForwardCurve(d, p)] evaluates to when it does not
    raise. *)
Definition built (d p : list R) : ForwardCurve.t :=
  {| ForwardCurve.dates := d;
     ForwardCurve.prices := p;
     ForwardCurve._interp :=
       {| Interp1d.x := map fst (Interp1d.sort (combine d (Np.log p)));
          Interp1d.y := map snd (Interp1d.sort (combine d (Np.log p))) |} |}.

(** The return sequences of the curves with at least two stored points,
    market by market and curve by curve. *)
Definition usable_returns (ms : PyDict.dict Market.t) : list (list R) :=
  flat_map
    (fun market =>
       map ForwardCurve.log_returns
         (filter (fun c => (2 <=? length (ForwardCurve.prices c))%nat)
            (PyDict.values (Market.curves market))))
    (PyDict.values ms).

(** The last [n] entries of a sequence. *)
Definition trailing (n : nat) (r : list R) : list R :=
  skipn (length r - n) r.

(** Column [j] of a matrix given by its rows. *)
Definition column (j : nat) (mat : list (list R)) : list R :=
  map (fun row => nth j row 0) mat.

(** The named curve and its terminal maturity, as both queries of the
    orchestrator find them: the first four statements of [forward_dynamics]
    and of [price_forward]. *)
Definition terminal {V : Type} (m : HJMModel.t V)
  (market_name curve_name : string) : result (ForwardCurve.t * R) :=
  market <-? PyDict.getitem (HJMModel.markets m) market_name ;;
  c <-? deref (Market.get_curve market curve_name) ;;
  T <-? Np.last_item (ForwardCurve.dates c) ;;
  Ok (c, T).

(** The variance term of [forward_dynamics]. *)
Definition variance (sigma : VolatilityModel.sigma_value) (t0 t1 : R) : R :=
  match sigma with
  | VolatilityModel.Vector s => Np.sum (map (fun x => x ^ 2) s) * (t1 - t0)
  | VolatilityModel.Scalar s => s ^ 2 * (t1 - t0)
  end.

(** ** Data of the end-to-end example: market "Gas" with one curve *)

Definition gas_curve : ForwardCurve.t :=
  built [1; 2; 3; 4; 5] [3.0; 3.1; 3.05; 3.2; 3.3].

Definition gas_market : Market.t :=
  fst (Market.add_forward_curve "forward" gas_curve
         (Market.__init__ "Gas" None "gas")).

Definition gas_model {V : Type} (v : V) : HJMModel.t V :=
  fst (HJMModel.add_market gas_market (HJMModel.__init__ v)).

(** A second curve, of three points, and a market holding both. *)
Definition short_curve : ForwardCurve.t := built [1; 2; 3] [2; 4; 8].

Definition two_curve_market : Market.t :=
  fst (Market.add_forward_curve "short" short_curve gas_market).

Definition two_curve_model {V : Type} (v : V) : HJMModel.t V :=
  fst (HJMModel.add_market two_curve_market (HJMModel.__init__ v)).

(** The markets a caller can hold: a fresh one, extended by
    [add_forward_curve]. *)
Inductive market_reachable : Market.t -> Prop :=
| reach_init (name : string) (region : option string) (commodity : string) :
    market_reachable (Market.__init__ name region commodity)
| reach_add (m : Market.t) (curve_name : string) (c : ForwardCurve.t) :
    market_reachable m ->
    market_reachable (fst (Market.add_forward_curve curve_name c m)).

(** The attributes a multi-factor model exposes are those of its PCA object,
    which was built for [n_factors] components and has both fitted
    attributes or neither. *)
Definition mirrors_pca (self : MultiFactorVolatilityModel.t) : Prop :=
  PCA.n_components (MultiFactorVolatilityModel.pca self)
  = MultiFactorVolatilityModel.n_factors self
  /\ MultiFactorVolatilityModel.components_ self
     = PCA.components_ (MultiFactorVolatilityModel.pca self)
  /\ MultiFactorVolatilityModel.explained_variance_ self
     = PCA.explained_variance_ratio_ (MultiFactorVolatilityModel.pca self)
  /\ (MultiFactorVolatilityModel.components_ self = None
      <-> MultiFactorVolatilityModel.explained_variance_ self = None).

(** A routine for the examples: it answers the seed when the seed already
    reproduces the sample [xs = [1; 2]], [ys = [0.2; 0.2]], and raises
    otherwise. *)
Definition seed_or_raise (f : R -> R -> R -> R)
  (xs ys : VolatilityModel.ndarray) (p0 : R * R) : result (R * R) :=
  if Req_dec_T (f 1 (fst p0) (snd p0)) 0.2 then
    if Req_dec_T (f 2 (fst p0) (snd p0)) 0.2 then Ok p0 else Raise ValueError
  else Raise ValueError.

(** * Properties *)

(** Unfolding of the method-call combinators. *)
Ltac run_method := unfold bind, attr, lift, ret, throw, rbind.

(** ** First differences and running sums *)

Lemma diff_length (a : list R) : length (Np.diff a) = (length a - 1)%nat.
Proof.
  induction a as [|u [|w a'] IH]; simpl in *; try reflexivity.
  rewrite IH. lia.
Qed.

Lemma diff_nth (a : list R) (i : nat) :
  (S i < length a)%nat ->
  nth i (Np.diff a) 0 = nth (S i) a 0 - nth i a 0.
Proof.
  revert i.
  induction a as [|u [|w a'] IH]; intros i Hi; simpl in Hi; try lia.
  destruct i as [|i].
  - reflexivity.
  - change (Np.diff (u :: w :: a')) with ((w - u) :: Np.diff (w :: a')).
    change (nth (S i) ((w - u) :: Np.diff (w :: a')) 0)
      with (nth i (Np.diff (w :: a')) 0).
    rewrite IH by (simpl; lia).
    reflexivity.
Qed.

Lemma cumsum_from_cons (acc u : R) (a : list R) :
  Np.cumsum_from acc (u :: a) = (acc + u) :: Np.cumsum_from (acc + u) a.
Proof. reflexivity. Qed.

Lemma cumsum_from_diff (u : R) (a : list R) :
  Np.cumsum_from u (Np.diff (u :: a)) = a.
Proof.
  revert u.
  induction a as [|w a' IH]; intros u.
  - reflexivity.
  - change (Np.diff (u :: w :: a')) with ((w - u) :: Np.diff (w :: a')).
    rewrite cumsum_from_cons.
    replace (u + (w - u)) with w by ring.
    now rewrite IH.
Qed.

Lemma cumsum_diff (a : list R) :
  Np.cumsum (nth 0 a 0 :: Np.diff a) = a \/ a = [].
Proof.
  destruct a as [|u a']; [now right | left].
  unfold Np.cumsum. simpl nth. rewrite cumsum_from_cons.
  replace (0 + u) with u by ring.
  now rewrite cumsum_from_diff.
Qed.

Lemma exp_log_positive (a : list R) :
  Forall (fun p => 0 < p) a -> map exp (Np.log a) = a.
Proof.
  unfold Np.log.
  induction 1 as [|u a' Hu _ IH]; simpl.
  - reflexivity.
  - rewrite exp_ln by exact Hu. now rewrite IH.
Qed.

Lemma log_nth (a : list R) (i : nat) :
  (i < length a)%nat -> nth i (Np.log a) 0 = ln (nth i a 0).
Proof.
  intros Hi. unfold Np.log.
  rewrite (nth_indep _ 0 (ln 0)) by now rewrite length_map.
  apply map_nth.
Qed.

(** X26 (floats idealised as reals): on a curve of at least two points with
    positive prices, [log_returns()] has one entry fewer than [prices], its
    i-th entry is [log(prices[i+1]) - log(prices[i])] in stored order, and
    the exponential of the running sum of [log(prices[0])] followed by the
    returns is [prices] again.  The last part is an identity of real
    numbers; float64 rounds [np.log], [np.exp] and the sums, and the
    program's reconstruction is not exact. *)
Theorem log_returns_reconstruct (c : ForwardCurve.t) :
  (2 <= length (ForwardCurve.prices c))%nat ->
  Forall (fun p => 0 < p) (ForwardCurve.prices c) ->
  length (ForwardCurve.log_returns c)
    = (length (ForwardCurve.prices c) - 1)%nat
  /\ (forall i, (i < length (ForwardCurve.prices c) - 1)%nat ->
        nth i (ForwardCurve.log_returns c) 0
        = ln (nth (S i) (ForwardCurve.prices c) 0)
          - ln (nth i (ForwardCurve.prices c) 0))
  /\ map exp (Np.cumsum (ln (nth 0 (ForwardCurve.prices c) 0)
                           :: ForwardCurve.log_returns c))
     = ForwardCurve.prices c.
Proof.
  intros Hlen Hpos.
  unfold ForwardCurve.log_returns.
  set (p := ForwardCurve.prices c) in *.
  assert (Hl : length (Np.log p) = length p) by apply length_map.
  split; [|split].
  - now rewrite diff_length, Hl.
  - intros i Hi.
    rewrite diff_nth by lia.
    now rewrite !log_nth by lia.
  - rewrite <- log_nth by lia.
    destruct (cumsum_diff (Np.log p)) as [E|E].
    + rewrite E. now apply exp_log_positive.
    + rewrite E in Hl. simpl in Hl. lia.
Qed.

(** ** The interpolant: sorting of the knots *)

Lemma insert_perm (p : R * R) (l : list (R * R)) :
  Permutation (Interp1d.insert p l) (p :: l).
Proof.
  induction l as [|q l IH]; simpl.
  - apply Permutation_refl.
  - destruct (Rle_dec (fst p) (fst q)).
    + apply Permutation_refl.
    + eapply perm_trans; [apply perm_skip, IH | apply perm_swap].
Qed.

Lemma sort_perm (l : list (R * R)) : Permutation (Interp1d.sort l) l.
Proof.
  induction l as [|p l IH]; simpl.
  - constructor.
  - eapply perm_trans; [apply insert_perm | now apply perm_skip].
Qed.

Lemma insert_sorted (p : R * R) (l : list (R * R)) :
  StronglySorted key_le l -> StronglySorted key_le (Interp1d.insert p l).
Proof.
  induction 1 as [|q l Hs IH Hq]; simpl.
  - repeat constructor.
  - destruct (Rle_dec (fst p) (fst q)) as [Hle|Hgt].
    + constructor; [now constructor|].
      constructor; [exact Hle|].
      eapply Forall_impl; [|exact Hq].
      intros r Hr. unfold key_le in *. lra.
    + constructor; [exact IH|].
      apply (Permutation_Forall (Permutation_sym (insert_perm p l))).
      constructor; [unfold key_le; lra | exact Hq].
Qed.

Lemma sort_sorted (l : list (R * R)) : StronglySorted key_le (Interp1d.sort l).
Proof.
  induction l as [|p l IH]; simpl.
  - constructor.
  - now apply insert_sorted.
Qed.

Lemma keys_sorted (l : list (R * R)) :
  StronglySorted key_le l -> StronglySorted Rle (map fst l).
Proof.
  induction 1 as [|q l Hs IH Hq]; simpl; constructor; auto.
  now apply Forall_map.
Qed.

Lemma map_fst_combine {A B : Type} (l : list A) (l' : list B) :
  length l = length l' -> map fst (combine l l') = l.
Proof.
  revert l'. induction l as [|u l IH]; intros [|w l'] E; simpl in *;
    try discriminate; try reflexivity.
  f_equal. apply IH. lia.
Qed.

Lemma sorted_nodup_strict (l : list R) :
  StronglySorted Rle l -> NoDup l -> StronglySorted Rlt l.
Proof.
  induction 1 as [|u l Hs IH Hu]; intros Hnd.
  - constructor.
  - inversion Hnd as [|? ? Hnin Hnd']; subst.
    constructor; [now apply IH|].
    rewrite Forall_forall in *. intros w Hw.
    destruct (Hu w Hw) as [Hlt|Heq]; [exact Hlt | now subst].
Qed.

Lemma increasing_nodup (l : list R) : StronglySorted Rlt l -> NoDup l.
Proof.
  induction 1 as [|u l Hs IH Hu]; constructor; auto.
  intros Hin. rewrite Forall_forall in Hu.
  specialize (Hu u Hin). lra.
Qed.

Lemma decreasing_nodup (l : list R) : StronglySorted Rgt l -> NoDup l.
Proof.
  induction 1 as [|u l Hs IH Hu]; constructor; auto.
  intros Hin. rewrite Forall_forall in Hu.
  specialize (Hu u Hin). lra.
Qed.

(** ** The interpolant: evaluation at a knot *)

Lemma getitem_of_nat (a : list R) (i : nat) :
  Np.getitem a (Z.of_nat i) = nth i a 0.
Proof.
  unfold Np.getitem.
  destruct (Z.ltb_spec (Z.of_nat i) 0); [lia|].
  now rewrite Nat2Z.id.
Qed.

Lemma searchsorted_knot (xs : list R) (j : nat) :
  StronglySorted Rlt xs -> (j < length xs)%nat ->
  Np.searchsorted xs (nth j xs 0) = j.
Proof.
  intros Hs. revert j.
  induction Hs as [|u l Hs IH Hu]; intros j Hj; simpl in Hj; [lia|].
  destruct j as [|j]; simpl.
  - destruct (Rlt_dec u u); [lra | reflexivity].
  - rewrite Forall_forall in Hu.
    assert (u < nth j l 0) by (apply Hu, nth_In; lia).
    destruct (Rlt_dec u (nth j l 0)); [|contradiction].
    f_equal. apply IH. lia.
Qed.

Lemma increasing_step (xs : list R) (j : nat) :
  StronglySorted Rlt xs -> (S j < length xs)%nat ->
  nth j xs 0 < nth (S j) xs 0.
Proof.
  intros Hs. revert j.
  induction Hs as [|u l Hs IH Hu]; intros j Hj; simpl in Hj; [lia|].
  destruct j as [|j].
  - rewrite Forall_forall in Hu. apply Hu.
    cbn [nth]. apply nth_In. lia.
  - change (nth j l 0 < nth (S j) l 0).
    apply IH. lia.
Qed.

Lemma call_at_knot (xs ys : list R) (j : nat) :
  StronglySorted Rlt xs -> (2 <= length xs)%nat -> (j < length xs)%nat ->
  Interp1d.call {| Interp1d.x := xs; Interp1d.y := ys |} (nth j xs 0)
  = nth j ys 0.
Proof.
  intros Hs Hn Hj.
  unfold Interp1d.call.
  cbn [Interp1d.x Interp1d.y].
  rewrite searchsorted_knot by assumption.
  destruct j as [|j].
  - replace (Np.clip (Z.of_nat 0) 1 (Z.of_nat (length xs) - 1)) with 1%Z
      by (unfold Np.clip; lia).
    change (1 - 1)%Z with (Z.of_nat 0).
    change 1%Z with (Z.of_nat 1).
    rewrite !getitem_of_nat.
    unfold Rdiv. ring.
  - replace (Np.clip (Z.of_nat (S j)) 1 (Z.of_nat (length xs) - 1))
      with (Z.of_nat (S j)) by (unfold Np.clip; lia).
    replace (Z.of_nat (S j) - 1)%Z with (Z.of_nat j) by lia.
    rewrite !getitem_of_nat.
    pose proof (increasing_step xs j Hs Hj).
    field. lra.
Qed.

(** ** Construction of a curve *)

Lemma init_inv (d p : list R) (c : ForwardCurve.t) :
  ForwardCurve.__init__ d p = Ok c ->
  length d = length p /\ (Interp1d.minval <= length d)%nat /\ c = built d p.
Proof.
  unfold ForwardCurve.__init__, Interp1d.init, Np.log, built.
  rewrite length_map.
  destruct (Nat.eqb_spec (length p) (length d)) as [E|E]; simpl;
    [|discriminate].
  destruct (Nat.ltb_spec (length d) Interp1d.minval) as [L|L]; simpl;
    [discriminate|].
  intros [= <-]. auto.
Qed.

Lemma init_ok (d p : list R) :
  length d = length p -> (Interp1d.minval <= length d)%nat ->
  ForwardCurve.__init__ d p = Ok (built d p).
Proof.
  intros E L.
  unfold ForwardCurve.__init__, Interp1d.init, Np.log, built.
  rewrite length_map.
  destruct (Nat.eqb_spec (length p) (length d)); [simpl | congruence].
  destruct (Nat.ltb_spec (length d) Interp1d.minval); [lia | reflexivity].
Qed.

Lemma get_forward_at_knot (d p : list R) (c : ForwardCurve.t) (i : nat) :
  ForwardCurve.__init__ d p = Ok c ->
  NoDup d -> (2 <= length d)%nat -> Forall (fun u => 0 < u) p ->
  (i < length d)%nat ->
  ForwardCurve.get_forward c (nth i d 0) = nth i p 0.
Proof.
  intros Hc Hnd Hn Hpos Hi.
  destruct (init_inv d p c Hc) as (E & _ & ->).
  unfold ForwardCurve.get_forward, built. cbn [ForwardCurve._interp].
  set (S := Interp1d.sort (combine d (Np.log p))).
  assert (Elog : length d = length (Np.log p))
    by (unfold Np.log; now rewrite length_map).
  assert (HP : Permutation S (combine d (Np.log p))) by apply sort_perm.
  assert (Hx : Permutation (map fst S) d).
  { rewrite <- (map_fst_combine d (Np.log p) Elog). now apply Permutation_map. }
  assert (Hs : StronglySorted Rlt (map fst S)).
  { apply sorted_nodup_strict.
    - apply keys_sorted, sort_sorted.
    - apply (Permutation_NoDup (Permutation_sym Hx) Hnd). }
  assert (HlenS : length (map fst S) = length d)
    by now apply Permutation_length.
  assert (Hin : In (nth i d 0, ln (nth i p 0)) S).
  { apply (Permutation_in _ (Permutation_sym HP)).
    rewrite <- log_nth by lia.
    rewrite <- combine_nth by exact Elog.
    apply nth_In. rewrite length_combine, <- Elog. lia. }
  destruct (In_nth S _ (0, 0) Hin) as (j & Hj & Hnth).
  assert (Hxj : nth j (map fst S) 0 = nth i d 0).
  { change 0 with (fst (0, 0)) at 1. rewrite map_nth, Hnth. reflexivity. }
  assert (Hyj : nth j (map snd S) 0 = ln (nth i p 0)).
  { change 0 with (snd (0, 0)) at 1. rewrite map_nth, Hnth. reflexivity. }
  rewrite <- Hxj.
  rewrite call_at_knot; try assumption; try lia.
  - rewrite Hyj. apply exp_ln.
    rewrite Forall_forall in Hpos. apply Hpos, nth_In. lia.
  - rewrite length_map in *. lia.
Qed.

(** C4: on a curve of at least two points with positive prices and strictly
    monotonic maturities, [get_forward] at the stored maturity [dates[i]] is
    the stored price [prices[i]]. *)
Theorem get_forward_exact_at_knots (d p : list R) :
  length d = length p ->
  (2 <= length d)%nat ->
  Forall (fun u => 0 < u) p ->
  strictly_monotonic d ->
  exists c,
    ForwardCurve.__init__ d p = Ok c
    /\ ForwardCurve.dates c = d
    /\ ForwardCurve.prices c = p
    /\ forall i, (i < length d)%nat ->
         ForwardCurve.get_forward c (nth i (ForwardCurve.dates c) 0)
         = nth i (ForwardCurve.prices c) 0.
Proof.
  intros E Hn Hpos Hmono.
  assert (Hc : ForwardCurve.__init__ d p = Ok (built d p))
    by (apply init_ok; [exact E | unfold Interp1d.minval; lia]).
  exists (built d p).
  repeat split; try assumption.
  intros i Hi. cbn [built ForwardCurve.dates ForwardCurve.prices].
  apply (get_forward_at_knot d p _ i Hc); try assumption.
  destruct Hmono; [now apply increasing_nodup | now apply decreasing_nodup].
Qed.

(** ** Slicing *)

Lemma in_range_spec (start end_ x : R) :
  in_range start end_ x = true <-> start <= x <= end_.
Proof.
  unfold in_range, Rleb.
  destruct (Rle_dec start x), (Rle_dec x end_); simpl; split;
    intros; try discriminate; try reflexivity; lra.
Qed.

Lemma select_dates (f : R -> bool) (d : list R) :
  Np.select d (map f d) = filter f d.
Proof.
  induction d as [|u d IH]; simpl; [reflexivity|].
  destruct (f u); now rewrite IH.
Qed.

Lemma select_prices (f : R -> bool) (d p : list R) :
  length d = length p ->
  Np.select p (map f d) = map snd (filter (fun q => f (fst q)) (combine d p)).
Proof.
  revert p. induction d as [|u d IH]; intros [|w p] E; simpl in *;
    try discriminate; try reflexivity.
  destruct (f u); simpl; rewrite IH by lia; reflexivity.
Qed.

Lemma captured_dates (start end_ : R) (d p : list R) :
  length d = length p ->
  map fst (captured start end_ d p) = filter (in_range start end_) d.
Proof.
  unfold captured.
  revert p. induction d as [|u d IH]; intros [|w p] E; simpl in *;
    try discriminate; try reflexivity.
  destruct (in_range start end_ u); simpl; rewrite IH by lia; reflexivity.
Qed.

Lemma combine_fst_snd {A B : Type} (l : list (A * B)) :
  combine (map fst l) (map snd l) = l.
Proof.
  induction l as [|[u w] l IH]; simpl; [reflexivity | now rewrite IH].
Qed.

(** What a call of [slice] on a constructed curve does. *)
Lemma slice_run (d p : list R) (c : ForwardCurve.t) (start end_ : R) :
  ForwardCurve.__init__ d p = Ok c ->
  ForwardCurve.slice start end_ c
  = (c, ForwardCurve.__init__ (map fst (captured start end_ d p))
          (map snd (captured start end_ d p))).
Proof.
  intros Hc.
  destruct (init_inv d p c Hc) as (E & _ & ->).
  unfold ForwardCurve.slice, Np.bool_index, built. run_method.
  cbn [ForwardCurve.dates ForwardCurve.prices].
  rewrite !length_map, Nat.eqb_refl, E, Nat.eqb_refl.
  fold (in_range start end_).
  rewrite (select_dates (in_range start end_)).
  rewrite (select_prices (in_range start end_)) by exact E.
  now rewrite captured_dates by exact E.
Qed.

Lemma slice_result (d p : list R) (c : ForwardCurve.t) (start end_ : R) :
  ForwardCurve.__init__ d p = Ok c ->
  (captured start end_ d p = [] ->
     snd (ForwardCurve.slice start end_ c) = Raise ValueError)
  /\ (captured start end_ d p <> [] ->
        snd (ForwardCurve.slice start end_ c)
        = Ok (built (map fst (captured start end_ d p))
                (map snd (captured start end_ d p)))).
Proof.
  intros Hc. rewrite (slice_run d p c start end_ Hc). cbn [snd].
  split.
  - intros ->. reflexivity.
  - intros Hne. apply init_ok.
    + now rewrite !length_map.
    + rewrite length_map. unfold Interp1d.minval.
      destruct (captured start end_ d p); [congruence | simpl; lia].
Qed.

(** C5, amended: on a constructed curve, [slice(start, end)] leaves the
    receiver as it was; when at least one stored date lies in [[start, end]]
    it returns a curve whose dates are the stored dates [d] with
    [start <= d <= end] in stored order, each with its own price; when none
    does, it raises [ValueError]. *)
Theorem slice_subcurve (d p : list R) (c : ForwardCurve.t) (start end_ : R) :
  ForwardCurve.__init__ d p = Ok c ->
  let kept := captured start end_ (ForwardCurve.dates c) (ForwardCurve.prices c) in
  fst (ForwardCurve.slice start end_ c) = c
  /\ (forall x, in_range start end_ x = true <-> start <= x <= end_)
  /\ (kept <> [] ->
        exists c',
          snd (ForwardCurve.slice start end_ c) = Ok c'
          /\ ForwardCurve.dates c'
             = filter (in_range start end_) (ForwardCurve.dates c)
          /\ combine (ForwardCurve.dates c') (ForwardCurve.prices c') = kept
          /\ length (ForwardCurve.prices c') = length (ForwardCurve.dates c'))
  /\ (kept = [] -> snd (ForwardCurve.slice start end_ c) = Raise ValueError).
Proof.
  intros Hc kept.
  destruct (init_inv d p c Hc) as (E & _ & Hb).
  assert (Hk : kept = captured start end_ d p) by (unfold kept; now rewrite Hb).
  destruct (slice_result d p c start end_ Hc) as [Hnone Hsome].
  split; [|split; [|split]].
  - now rewrite (slice_run d p c start end_ Hc).
  - apply in_range_spec.
  - intros Hne. rewrite Hk in Hne.
    eexists. split; [exact (Hsome Hne)|].
    cbn [built ForwardCurve.dates ForwardCurve.prices].
    rewrite Hk, Hb. cbn [built ForwardCurve.dates].
    rewrite combine_fst_snd, !length_map.
    rewrite captured_dates by exact E. auto.
  - intros He. apply Hnone. now rewrite <- Hk.
Qed.

(** C9, amended: construction raises when there is no point and succeeds
    with a single one (given as many prices as dates); so [slice] raises
    exactly when [[start, end]] holds none of the stored dates. *)
Theorem construction_needs_one_point :
  (forall p, ForwardCurve.__init__ [] p = Raise ValueError)
  /\ (forall d p, length d = length p -> (1 <= length d)%nat ->
        exists c, ForwardCurve.__init__ d p = Ok c
                  /\ ForwardCurve.dates c = d /\ ForwardCurve.prices c = p)
  /\ (forall d p c start end_,
        ForwardCurve.__init__ d p = Ok c ->
        (raises (snd (ForwardCurve.slice start end_ c))
         <-> filter (in_range start end_) (ForwardCurve.dates c) = [])).
Proof.
  split; [|split].
  - intros p. unfold ForwardCurve.__init__, Interp1d.init, Np.log.
    rewrite length_map. destruct p; reflexivity.
  - intros d p E L. exists (built d p). repeat split.
    apply init_ok; [exact E | exact L].
  - intros d p c start end_ Hc.
    destruct (init_inv d p c Hc) as (E & _ & Hb).
    destruct (slice_result d p c start end_ Hc) as [Hnone Hsome].
    rewrite Hb. cbn [built ForwardCurve.dates].
    rewrite <- (captured_dates start end_ d p E). rewrite <- Hb.
    destruct (captured start end_ d p) as [|q l] eqn:Hq.
    + split; [reflexivity|]. intros _. exists ValueError. now apply Hnone.
    + split.
      * intros [e He]. rewrite Hsome in He by congruence. discriminate.
      * simpl. discriminate.
Qed.

(** ** The orchestrator: lookups *)

Section Orchestrator.

Context {V : Type} {VM : VolatilityModel.Model V}.

Lemma price_forward_run (m : HJMModel.t V) (mn cn : string) (t : R) :
  HJMModel.price_forward mn cn t m
  = (m, ct <-? terminal m mn cn ;;
        Ok (ForwardCurve.get_forward (fst ct) (snd ct))).
Proof.
  unfold HJMModel.price_forward, terminal. run_method.
  destruct (PyDict.getitem (HJMModel.markets m) mn) as [mk|e]; [|reflexivity].
  destruct (deref (Market.get_curve mk cn)) as [c|e]; [|reflexivity].
  destruct (Np.last_item (ForwardCurve.dates c)); reflexivity.
Qed.

Lemma forward_dynamics_run (m : HJMModel.t V) (mn cn : string) (t0 t1 : R) :
  HJMModel.forward_dynamics mn cn t0 t1 m
  = (m, ct <-? terminal m mn cn ;;
        sigma <-? VolatilityModel.sigma (HJMModel.vol_model m) t0 (snd ct) ;;
        Ok (ForwardCurve.get_forward (fst ct) (snd ct)
            * exp (- 0.5 * variance sigma t0 t1))).
Proof.
  unfold HJMModel.forward_dynamics, terminal. run_method.
  destruct (PyDict.getitem (HJMModel.markets m) mn) as [mk|e]; [|reflexivity].
  destruct (deref (Market.get_curve mk cn)) as [c|e]; [|reflexivity].
  destruct (Np.last_item (ForwardCurve.dates c)) as [T|e]; [|reflexivity].
  cbn [fst snd].
  destruct (VolatilityModel.sigma (HJMModel.vol_model m) t0 T); reflexivity.
Qed.

Lemma terminal_registered (m : HJMModel.t V) (mn cn : string)
  (mk : Market.t) (c : ForwardCurve.t) (d p : list R) :
  PyDict.get (HJMModel.markets m) mn = Some mk ->
  PyDict.get (Market.curves mk) cn = Some c ->
  ForwardCurve.__init__ d p = Ok c ->
  terminal m mn cn = Ok (c, last (ForwardCurve.dates c) 0).
Proof.
  intros Hm Hcv Hc.
  unfold terminal, PyDict.getitem, Market.get_curve.
  rewrite Hm. cbn [rbind]. rewrite Hcv. cbn [deref rbind].
  destruct (init_inv d p c Hc) as (_ & L & ->).
  cbn [built ForwardCurve.dates].
  destruct d; [unfold Interp1d.minval in L; simpl in L; lia | reflexivity].
Qed.

Lemma terminal_unknown_market (m : HJMModel.t V) (mn cn : string) :
  PyDict.get (HJMModel.markets m) mn = None ->
  terminal m mn cn = Raise KeyError.
Proof.
  intros Hm. unfold terminal, PyDict.getitem. now rewrite Hm.
Qed.

Lemma terminal_unknown_curve (m : HJMModel.t V) (mn cn : string)
  (mk : Market.t) :
  PyDict.get (HJMModel.markets m) mn = Some mk ->
  PyDict.get (Market.curves mk) cn = None ->
  terminal m mn cn = Raise AttributeError.
Proof.
  intros Hm Hcv. unfold terminal, PyDict.getitem, Market.get_curve.
  rewrite Hm. cbn [rbind]. now rewrite Hcv.
Qed.

(** C6: for registered names, [price_forward] returns the named curve's
    [get_forward] at that curve's last stored maturity and leaves the model
    as it was; its outcome is the same for every [t]. *)
Theorem price_forward_terminal (m : HJMModel.t V) (mn cn : string)
  (mk : Market.t) (c : ForwardCurve.t) (d p : list R) :
  PyDict.get (HJMModel.markets m) mn = Some mk ->
  PyDict.get (Market.curves mk) cn = Some c ->
  ForwardCurve.__init__ d p = Ok c ->
  (forall t,
     HJMModel.price_forward mn cn t m
     = (m, Ok (ForwardCurve.get_forward c (last (ForwardCurve.dates c) 0))))
  /\ (forall t t',
        HJMModel.price_forward mn cn t m = HJMModel.price_forward mn cn t' m).
Proof.
  intros Hm Hcv Hc. split.
  - intros t. rewrite price_forward_run.
    now rewrite (terminal_registered m mn cn mk c d p Hm Hcv Hc).
  - intros t t'. now rewrite !price_forward_run.
Qed.

(** C7, amended: both queries raise on an unregistered name and leave the
    model as it was.  An unknown market name is a [KeyError] of the market
    mapping; an unknown curve name in a known market is not a lookup failure:
    [get_curve] answers [None] and reading its [dates] raises
    [AttributeError]. *)
Theorem unknown_name_raises (m : HJMModel.t V) (mn cn : string) (t0 t1 t : R) :
  (PyDict.get (HJMModel.markets m) mn = None ->
     HJMModel.forward_dynamics mn cn t0 t1 m = (m, Raise KeyError)
     /\ HJMModel.price_forward mn cn t m = (m, Raise KeyError))
  /\ (forall mk,
        PyDict.get (HJMModel.markets m) mn = Some mk ->
        PyDict.get (Market.curves mk) cn = None ->
        HJMModel.forward_dynamics mn cn t0 t1 m = (m, Raise AttributeError)
        /\ HJMModel.price_forward mn cn t m = (m, Raise AttributeError)).
Proof.
  split.
  - intros Hm.
    rewrite forward_dynamics_run, price_forward_run.
    now rewrite (terminal_unknown_market m mn cn Hm).
  - intros mk Hm Hcv.
    rewrite forward_dynamics_run, price_forward_run.
    now rewrite (terminal_unknown_curve m mn cn mk Hm Hcv).
Qed.

End Orchestrator.

(** ** The orchestrator: expected forward price *)

Lemma gas_curve_built :
  ForwardCurve.__init__ [1; 2; 3; 4; 5] [3.0; 3.1; 3.05; 3.2; 3.3]
  = Ok gas_curve.
Proof. apply init_ok; [reflexivity | unfold Interp1d.minval; simpl; lia]. Qed.

Lemma gas_curve_terminal_price : ForwardCurve.get_forward gas_curve 5 = 3.3.
Proof.
  apply (get_forward_at_knot _ _ gas_curve 4 gas_curve_built).
  - apply increasing_nodup. repeat constructor; lra.
  - simpl; lia.
  - repeat constructor; lra.
  - simpl; lia.
Qed.

(** C1: for registered names, [forward_dynamics] returns
    [F0 * exp(-0.5 * variance)] with [T] the last stored maturity of the
    curve, [F0 = get_forward(T)] and [variance] the sum of the squared
    factors of [sigma(t0, T)] times [t1 - t0] for a vector, the square of
    [sigma(t0, T)] times [t1 - t0] for a scalar; on the one-curve market
    "Gas" with last price 3.3 and the exponential model [gamma = 0.1],
    [k = 0.0], from [t0 = 0] to [t1 = 1], that is [3.3 * exp(-0.5*0.01*1)]. *)
Theorem forward_dynamics_formula :
  (forall (V : Type) (VM : VolatilityModel.Model V) (m : HJMModel.t V)
          (mn cn : string) (t0 t1 : R)
          (mk : Market.t) (c : ForwardCurve.t) (d p : list R),
      PyDict.get (HJMModel.markets m) mn = Some mk ->
      PyDict.get (Market.curves mk) cn = Some c ->
      ForwardCurve.__init__ d p = Ok c ->
      let T := last (ForwardCurve.dates c) 0 in
      let F0 := ForwardCurve.get_forward c T in
      (forall s,
          VolatilityModel.sigma (HJMModel.vol_model m) t0 T
          = Ok (VolatilityModel.Vector s) ->
          HJMModel.forward_dynamics mn cn t0 t1 m
          = (m, Ok (F0 * exp (- 0.5 * (Np.sum (map (fun x => x ^ 2) s)
                                        * (t1 - t0))))))
      /\ (forall s,
             VolatilityModel.sigma (HJMModel.vol_model m) t0 T
             = Ok (VolatilityModel.Scalar s) ->
             HJMModel.forward_dynamics mn cn t0 t1 m
             = (m, Ok (F0 * exp (- 0.5 * (s ^ 2 * (t1 - t0)))))))
  /\ (forall curve_fit,
        let VM := ExponentialVolatilityModel.Model curve_fit in
        let m := gas_model (ExponentialVolatilityModel.__init__ 0.1 0.0) in
        HJMModel.forward_dynamics "Gas" "forward" 0 1 m
        = (m, Ok (3.3 * exp (- 0.5 * 0.01 * 1)))).
Proof.
  split.
  - intros V VM m mn cn t0 t1 mk c d p Hm Hcv Hc T F0.
    pose proof (terminal_registered m mn cn mk c d p Hm Hcv Hc) as Ht.
    split; intros s Hs; rewrite forward_dynamics_run, Ht;
      cbn [rbind fst snd]; fold T; rewrite Hs; reflexivity.
  - intros curve_fit VM m.
    rewrite forward_dynamics_run.
    assert (Ht : terminal m "Gas" "forward" = Ok (gas_curve, 5))
      by reflexivity.
    rewrite Ht. cbn [rbind fst snd].
    rewrite gas_curve_terminal_price.
    cbn [VolatilityModel.sigma VM ExponentialVolatilityModel.Model rbind
         variance].
    unfold ExponentialVolatilityModel.sigma, m, gas_model.
    cbn [HJMModel.vol_model HJMModel.add_market HJMModel.__init__ fst
         ExponentialVolatilityModel.__init__
         ExponentialVolatilityModel.gamma ExponentialVolatilityModel.k].
    replace (- 0.0 * (5 - 0)) with 0 by lra.
    rewrite exp_0.
    do 3 f_equal. apply f_equal. cbn [pow]. lra.
Qed.

(** ** Calibration: collecting the returns *)

Lemma curve_loop (l : list ForwardCurve.t) (acc : list (list R)) :
  fold_left
    (fun returns curve =>
       if (1 <? length (ForwardCurve.prices curve))%nat
       then returns ++ [ForwardCurve.log_returns curve]
       else returns) l acc
  = acc ++ map ForwardCurve.log_returns
             (filter (fun c => (2 <=? length (ForwardCurve.prices c))%nat) l).
Proof.
  revert acc. induction l as [|c l IH]; intros acc; cbn [fold_left filter].
  - cbn [map]. now rewrite app_nil_r.
  - rewrite IH.
    change (1 <? length (ForwardCurve.prices c))%nat
      with (2 <=? length (ForwardCurve.prices c))%nat.
    destruct (2 <=? length (ForwardCurve.prices c))%nat; cbn [map].
    + now rewrite <- app_assoc.
    + reflexivity.
Qed.

Lemma collect_returns_usable (ms : PyDict.dict Market.t) :
  HJMModel.collect_returns ms = usable_returns ms.
Proof.
  unfold HJMModel.collect_returns, usable_returns.
  generalize (PyDict.values ms) as l.
  assert (G : forall (l : list Market.t) (acc : list (list R)),
    fold_left
      (fun returns market =>
         fold_left
           (fun returns curve =>
              if (1 <? length (ForwardCurve.prices curve))%nat
              then returns ++ [ForwardCurve.log_returns curve]
              else returns)
           (PyDict.values (Market.curves market)) returns) l acc
    = acc ++ flat_map
               (fun market =>
                  map ForwardCurve.log_returns
                    (filter
                       (fun c => (2 <=? length (ForwardCurve.prices c))%nat)
                       (PyDict.values (Market.curves market)))) l).
  { induction l as [|mk l IH]; intros acc; simpl.
    - now rewrite app_nil_r.
    - rewrite IH, curve_loop. now rewrite app_assoc. }
  intros l. apply (G l []).
Qed.

Lemma usable_returns_nonempty (ms : PyDict.dict Market.t) :
  Forall (fun r => (1 <= length r)%nat) (usable_returns ms).
Proof.
  apply Forall_forall. intros r Hr.
  unfold usable_returns in Hr.
  apply in_flat_map in Hr. destruct Hr as (mk & _ & Hr).
  apply in_map_iff in Hr. destruct Hr as (c & <- & Hc).
  apply filter_In in Hc. destruct Hc as [_ Hc].
  apply Nat.leb_le in Hc.
  unfold ForwardCurve.log_returns, Np.log.
  rewrite diff_length, length_map. lia.
Qed.

(** ** Calibration: alignment *)

Lemma fold_min_spec (t : list nat) (h : nat) :
  Forall (fun u => (fold_left Nat.min t h <= u)%nat) (h :: t)
  /\ In (fold_left Nat.min t h) (h :: t).
Proof.
  revert h. induction t as [|u t IH]; intros h; simpl fold_left.
  - split; [repeat constructor | now left].
  - destruct (IH (Nat.min h u)) as [Hall Hin]. split.
    + inversion Hall as [|? ? Hhd Htl]; subst.
      constructor; [lia|]. constructor; [lia | exact Htl].
    + destruct Hin as [Hin|Hin].
      * rewrite <- Hin.
        destruct (Nat.min_spec h u) as [[_ E]|[_ E]]; rewrite E.
        -- now left.
        -- right. now left.
      * right. right. exact Hin.
Qed.

Lemma py_min_spec (l : list nat) :
  l <> [] ->
  exists n, HJMModel.py_min l = Ok n
            /\ Forall (fun u => (n <= u)%nat) l /\ In n l.
Proof.
  destruct l as [|h t]; [congruence | intros _].
  exists (fold_left Nat.min t h). split; [reflexivity | apply fold_min_spec].
Qed.

Lemma slice_from_trailing (r : list R) (n : nat) :
  (1 <= n <= length r)%nat ->
  Np.slice_from r (- Z.of_nat n) = trailing n r.
Proof.
  intros Hn. unfold Np.slice_from, trailing.
  destruct (Z.ltb_spec (- Z.of_nat n) 0); [|lia].
  f_equal. lia.
Qed.

Lemma trailing_length (r : list R) (n : nat) :
  (n <= length r)%nat -> length (trailing n r) = n.
Proof.
  intros Hn. unfold trailing. rewrite length_skipn. lia.
Qed.

Lemma trailing_suffix (r : list R) (n : nat) :
  r = firstn (length r - n) r ++ trailing n r.
Proof.
  unfold trailing. now rewrite firstn_skipn.
Qed.

Lemma nth_seq_all (c : list R) :
  map (fun i => nth i c 0) (seq 0 (length c)) = c.
Proof.
  apply (nth_ext _ _ 0 0).
  - now rewrite length_map, length_seq.
  - intros i Hi. rewrite length_map, length_seq in Hi.
    rewrite (nth_indep _ 0 (nth (length c) c 0))
      by now rewrite length_map, length_seq.
    rewrite (map_nth (fun i => nth i c 0)).
    now rewrite seq_nth by exact Hi.
Qed.

Lemma column_stack_columns (cols : list (list R)) (n : nat) :
  cols <> [] ->
  Forall (fun c => length c = n) cols ->
  exists mat,
    Np.column_stack cols = Ok mat
    /\ length mat = n
    /\ Forall (fun row => length row = length cols) mat
    /\ forall j, (j < length cols)%nat -> column j mat = nth j cols [].
Proof.
  intros Hne Hall.
  destruct cols as [|c0 cols']; [congruence|].
  set (cols := c0 :: cols') in *.
  assert (H0 : length c0 = n) by now inversion Hall.
  unfold Np.column_stack. fold cols.
  assert (Hb : forallb (fun c => (length c =? length c0)%nat) cols = true).
  { apply forallb_forall. intros c Hc. rewrite Forall_forall in Hall.
    apply Nat.eqb_eq. rewrite (Hall c Hc). now rewrite H0. }
  unfold cols at 1. cbv iota. fold cols. rewrite Hb.
  eexists. split; [reflexivity|].
  split; [|split].
  - now rewrite length_map, length_seq.
  - apply Forall_forall. intros row Hrow.
    apply in_map_iff in Hrow. destruct Hrow as (i & <- & _).
    now rewrite length_map.
  - intros j Hj. unfold column. rewrite map_map.
    assert (Hcj : length (nth j cols []) = length c0).
    { rewrite Forall_forall in Hall.
      rewrite (Hall (nth j cols [])) by (apply nth_In; exact Hj).
      now rewrite H0. }
    rewrite <- Hcj.
    rewrite <- (nth_seq_all (nth j cols [])) at 2.
    apply map_ext. intros i.
    rewrite (nth_indep _ 0 (nth i [] 0)) by now rewrite length_map.
    now rewrite (map_nth (fun c => nth i c 0)).
Qed.

(** ** Calibration: the call *)

Section Calibration.

Context {V : Type} {VM : VolatilityModel.Model V}.

(** The call of the volatility model's [calibrate] on a matrix, followed by
    the two attribute reads of the [print] statement. *)
Lemma calibrate_run (m : HJMModel.t V) :
  HJMModel.calibrate m
  = match HJMModel.py_min
            (map (@length R) (HJMModel.collect_returns (HJMModel.markets m)))
    with
    | Raise e => (m, Raise e)
    | Ok min_len =>
        match Np.column_stack
                (map (fun r => Np.slice_from r (- Z.of_nat min_len))
                   (HJMModel.collect_returns (HJMModel.markets m)))
        with
        | Raise e => (m, Raise e)
        | Ok mat =>
            let vr := VolatilityModel.calibrate [VolatilityModel.Arr2 mat]
                        (HJMModel.vol_model m) in
            ({| HJMModel.vol_model := fst vr;
                HJMModel.markets := HJMModel.markets m |},
             _ <-? snd vr ;;
             n <-? VolatilityModel.n_factors (fst vr) ;;
             ev <-? VolatilityModel.explained_variance_ (fst vr) ;;
             Ok (n, ev))
        end
    end.
Proof.
  unfold HJMModel.calibrate, HJMModel.on_vol_model. run_method.
  destruct (HJMModel.py_min _) as [min_len|e]; [|reflexivity].
  destruct (Np.column_stack _) as [mat|e]; [|reflexivity].
  destruct (VolatilityModel.calibrate _ _) as [v' [u|e]]; cbn; [|reflexivity].
  destruct (VolatilityModel.n_factors v') as [n|e]; cbn; [|reflexivity].
  destruct (VolatilityModel.explained_variance_ v'); reflexivity.
Qed.

(** C2: [calibrate] collects [log_returns()] from exactly the curves of at
    least two stored points, over all markets; when none is collected it
    raises; otherwise it cuts every sequence to the shortest length [n],
    keeping its last [n] entries, makes them the columns of one matrix and
    hands that matrix to the volatility model's [calibrate]. *)
Theorem calibrate_aligns_returns (m : HJMModel.t V) :
  let rs := usable_returns (HJMModel.markets m) in
  HJMModel.collect_returns (HJMModel.markets m) = rs
  /\ (rs = [] -> HJMModel.calibrate m = (m, Raise ValueError))
  /\ (rs <> [] ->
        exists (n : nat) (mat : list (list R)),
          Forall (fun r => (n <= length r)%nat) rs
          /\ Exists (fun r => length r = n) rs
          /\ Forall (fun r => exists dropped,
                         r = dropped ++ trailing n r
                         /\ length (trailing n r) = n) rs
          /\ length mat = n
          /\ Forall (fun row => length row = length rs) mat
          /\ (forall j, (j < length rs)%nat ->
                column j mat = trailing n (nth j rs []))
          /\ HJMModel.calibrate m
             = let vr := VolatilityModel.calibrate [VolatilityModel.Arr2 mat]
                           (HJMModel.vol_model m) in
               ({| HJMModel.vol_model := fst vr;
                   HJMModel.markets := HJMModel.markets m |},
                _ <-? snd vr ;;
                k <-? VolatilityModel.n_factors (fst vr) ;;
                ev <-? VolatilityModel.explained_variance_ (fst vr) ;;
                Ok (k, ev))).
Proof.
  intros rs.
  pose proof (collect_returns_usable (HJMModel.markets m)) as Hcol.
  fold rs in Hcol.
  split; [exact Hcol|]. split.
  - intros Hrs. rewrite calibrate_run, Hcol, Hrs. reflexivity.
  - intros Hrs.
    assert (Hlens : map (@length R) rs <> []) by (destruct rs; [congruence | discriminate]).
    destruct (py_min_spec _ Hlens) as (n & Hmin & Hle & Hin).
    assert (Hle' : Forall (fun r => (n <= length r)%nat) rs).
    { apply Forall_forall. intros r Hr. rewrite Forall_forall in Hle.
      apply Hle. now apply in_map. }
    assert (Hpos : (1 <= n)%nat).
    { apply in_map_iff in Hin. destruct Hin as (r & <- & Hr).
      pose proof (usable_returns_nonempty (HJMModel.markets m)) as Hall.
      rewrite Forall_forall in Hall. now apply Hall. }
    assert (Hcut : map (fun r => Np.slice_from r (- Z.of_nat n)) rs
                   = map (trailing n) rs).
    { apply map_ext_in. intros r Hr. apply slice_from_trailing.
      rewrite Forall_forall in Hle'. specialize (Hle' r Hr). lia. }
    destruct (column_stack_columns (map (trailing n) rs) n)
      as (mat & Hmat & Hrows & Hwidth & Hcols).
    { destruct rs; [congruence | discriminate]. }
    { apply Forall_map. eapply Forall_impl; [|exact Hle'].
      intros r Hr. now apply trailing_length. }
    exists n, mat.
    split; [exact Hle'|]. split.
    { apply Exists_exists. apply in_map_iff in Hin.
      destruct Hin as (r & E & Hr). now exists r. }
    split.
    { eapply Forall_impl; [|exact Hle']. intros r Hr.
      exists (firstn (length r - n) r).
      split; [apply trailing_suffix | now apply trailing_length]. }
    split; [exact Hrows|]. split.
    { now rewrite length_map in Hwidth. }
    split.
    { intros j Hj. rewrite Hcols by now rewrite length_map.
      rewrite (nth_indep _ [] (trailing n [])) by now rewrite length_map.
      apply (map_nth (trailing n)). }
    rewrite calibrate_run, Hcol, Hmin, Hcut, Hmat. reflexivity.
Qed.

(** C10: whatever its outcome, [calibrate] leaves the market mapping of the
    model, and with it every market's curve mapping and every stored curve,
    as it was; only [vol_model] may differ. *)
Theorem calibrate_frame (m : HJMModel.t V) :
  HJMModel.markets (fst (HJMModel.calibrate m)) = HJMModel.markets m
  /\ (forall mn,
        PyDict.get (HJMModel.markets (fst (HJMModel.calibrate m))) mn
        = PyDict.get (HJMModel.markets m) mn)
  /\ fst (HJMModel.calibrate m)
     = {| HJMModel.vol_model := HJMModel.vol_model (fst (HJMModel.calibrate m));
          HJMModel.markets := HJMModel.markets m |}.
Proof.
  assert (H : HJMModel.markets (fst (HJMModel.calibrate m))
              = HJMModel.markets m).
  { rewrite calibrate_run.
    destruct (HJMModel.py_min _) as [min_len|e]; [|reflexivity].
    destruct (Np.column_stack _) as [mat|e]; reflexivity. }
  split; [exact H|]. split.
  - intros mn. now rewrite H.
  - rewrite <- H. now destruct (fst (HJMModel.calibrate m)).
Qed.

End Calibration.

(** ** The multi-factor model *)

(** C8: [sigma(t, T)] is a vector whose every entry is
    [exp(-0.5 * (T - t))]; it has [n_factors] entries, for [n_factors] a
    number of factors (not negative); it depends on [n_factors] alone, not
    on [components_] or [explained_variance_]; and a call of [calibrate], on
    any argument and with any outcome, leaves that value as it was. *)
Theorem multifactor_sigma_decoupled
  (decompose : Z -> VolatilityModel.ndarray -> result (list (list R) * list R))
  (self : MultiFactorVolatilityModel.t) (t T : R) :
  let VM := MultiFactorVolatilityModel.Model decompose in
  let v := MultiFactorVolatilityModel.sigma self t T in
  VolatilityModel.sigma self t T = Ok (VolatilityModel.Vector v)
  /\ ((0 <= MultiFactorVolatilityModel.n_factors self)%Z ->
      Z.of_nat (length v) = MultiFactorVolatilityModel.n_factors self)
  /\ Forall (fun u => u = exp (- 0.5 * (T - t))) v
  /\ (forall other,
        MultiFactorVolatilityModel.n_factors other
        = MultiFactorVolatilityModel.n_factors self ->
        MultiFactorVolatilityModel.sigma other t T = v)
  /\ (forall X,
        MultiFactorVolatilityModel.sigma
          (fst (MultiFactorVolatilityModel.calibrate decompose X self)) t T
        = v)
  /\ (forall args,
        VolatilityModel.sigma (fst (VolatilityModel.calibrate args self)) t T
        = Ok (VolatilityModel.Vector v)).
Proof.
  intros VM v.
  assert (Hcal : forall X,
    MultiFactorVolatilityModel.n_factors
      (fst (MultiFactorVolatilityModel.calibrate decompose X self))
    = MultiFactorVolatilityModel.n_factors self).
  { intros X. unfold MultiFactorVolatilityModel.calibrate.
    destruct (PCA.fit decompose X (MultiFactorVolatilityModel.pca self))
      as [pca' [u|e]]; reflexivity. }
  split; [reflexivity|]. split; [|split; [|split; [|split]]].
  - intros Hn. unfold v, MultiFactorVolatilityModel.sigma.
    rewrite repeat_length. lia.
  - unfold v, MultiFactorVolatilityModel.sigma.
    apply Forall_forall. intros u Hu. now apply repeat_spec in Hu.
  - intros other Hother. unfold v, MultiFactorVolatilityModel.sigma.
    now rewrite Hother.
  - intros X. unfold v, MultiFactorVolatilityModel.sigma. now rewrite Hcal.
  - intros args. cbn [VolatilityModel.sigma VolatilityModel.calibrate VM
                      MultiFactorVolatilityModel.Model].
    f_equal. f_equal. unfold v, MultiFactorVolatilityModel.sigma.
    destruct args as [|X [|Y args]]; try reflexivity.
    now rewrite Hcal.
Qed.

(** ** The statements on the example data *)

(** C1 on the market "Gas" with the exponential model. *)
Lemma forward_dynamics_formula_witness :
  let VM := ExponentialVolatilityModel.Model (fun _ _ _ _ => Raise ValueError) in
  let m := gas_model (ExponentialVolatilityModel.__init__ 0.1 0.0) in
  PyDict.get (HJMModel.markets m) "Gas" = Some gas_market
  /\ PyDict.get (Market.curves gas_market) "forward" = Some gas_curve
  /\ ForwardCurve.__init__ [1; 2; 3; 4; 5] [3.0; 3.1; 3.05; 3.2; 3.3]
     = Ok gas_curve
  /\ HJMModel.forward_dynamics "Gas" "forward" 0 1 m
     = (m, Ok (ForwardCurve.get_forward gas_curve 5
               * exp (- 0.5 * ((0.1 * exp (- 0.0 * (5 - 0))) ^ 2 * (1 - 0))))).
Proof.
  intros VM m.
  assert (H1 : PyDict.get (HJMModel.markets m) "Gas" = Some gas_market)
    by reflexivity.
  assert (H2 : PyDict.get (Market.curves gas_market) "forward" = Some gas_curve)
    by reflexivity.
  assert (H3 : ForwardCurve.__init__ [1; 2; 3; 4; 5] [3.0; 3.1; 3.05; 3.2; 3.3]
               = Ok gas_curve) by reflexivity.
  refine (conj H1 (conj H2 (conj H3 _))).
  destruct forward_dynamics_formula as [G _].
  exact (proj2 (G _ VM m "Gas"%string "forward"%string 0 1 gas_market gas_curve
                  _ _ H1 H2 H3) _ eq_refl).
Defined.

(** X26 on the five-point curve of the example. *)
Lemma log_returns_reconstruct_witness :
  (2 <= length (ForwardCurve.prices gas_curve))%nat
  /\ Forall (fun p => 0 < p) (ForwardCurve.prices gas_curve)
  /\ map exp (Np.cumsum (ln (nth 0 (ForwardCurve.prices gas_curve) 0)
                           :: ForwardCurve.log_returns gas_curve))
     = ForwardCurve.prices gas_curve.
Proof.
  assert (H1 : (2 <= length (ForwardCurve.prices gas_curve))%nat)
    by (simpl; lia).
  assert (H2 : Forall (fun p => 0 < p) (ForwardCurve.prices gas_curve))
    by (repeat constructor; lra).
  refine (conj H1 (conj H2 _)).
  apply (log_returns_reconstruct gas_curve H1 H2).
Defined.

(** C4 on the ladder [[1; 2; 3]] with prices [[2; 4; 8]]. *)
Lemma get_forward_exact_at_knots_witness :
  length [1; 2; 3] = length [2; 4; 8]
  /\ (2 <= length [1; 2; 3])%nat
  /\ Forall (fun u => 0 < u) [2; 4; 8]
  /\ strictly_monotonic [1; 2; 3]
  /\ exists c,
       ForwardCurve.__init__ [1; 2; 3] [2; 4; 8] = Ok c
       /\ ForwardCurve.dates c = [1; 2; 3]
       /\ ForwardCurve.prices c = [2; 4; 8]
       /\ forall i, (i < length [1; 2; 3])%nat ->
            ForwardCurve.get_forward c (nth i (ForwardCurve.dates c) 0)
            = nth i (ForwardCurve.prices c) 0.
Proof.
  assert (H1 : length [1; 2; 3] = length [2; 4; 8]) by reflexivity.
  assert (H2 : (2 <= length [1; 2; 3])%nat) by (simpl; lia).
  assert (H3 : Forall (fun u => 0 < u) [2; 4; 8]) by (repeat constructor; lra).
  assert (H4 : strictly_monotonic [1; 2; 3])
    by (left; repeat constructor; lra).
  refine (conj H1 (conj H2 (conj H3 (conj H4 _)))).
  apply (get_forward_exact_at_knots [1; 2; 3] [2; 4; 8] H1 H2 H3 H4).
Defined.

(** C5, amended, on [slice(2, 3)] of the three-point curve. *)
Lemma slice_subcurve_witness :
  ForwardCurve.__init__ [1; 2; 3] [2; 4; 8] = Ok short_curve
  /\ captured 2 3 [1; 2; 3] [2; 4; 8] = [(2, 4); (3, 8)]
  /\ fst (ForwardCurve.slice 2 3 short_curve) = short_curve
  /\ exists c',
       snd (ForwardCurve.slice 2 3 short_curve) = Ok c'
       /\ ForwardCurve.dates c' = filter (in_range 2 3) [1; 2; 3]
       /\ combine (ForwardCurve.dates c') (ForwardCurve.prices c')
          = captured 2 3 [1; 2; 3] [2; 4; 8]
       /\ length (ForwardCurve.prices c') = length (ForwardCurve.dates c').
Proof.
  assert (H : ForwardCurve.__init__ [1; 2; 3] [2; 4; 8] = Ok short_curve)
    by reflexivity.
  assert (Hk : captured 2 3 [1; 2; 3] [2; 4; 8] = [(2, 4); (3, 8)]).
  { unfold captured, in_range, Rleb. cbn [combine filter fst].
    destruct (Rle_dec 2 1); [lra|]. cbn [andb].
    destruct (Rle_dec 2 2); [|lra]. destruct (Rle_dec 2 3); [|lra].
    destruct (Rle_dec 3 3); [|lra]. reflexivity. }
  destruct (slice_subcurve [1; 2; 3] [2; 4; 8] short_curve 2 3 H)
    as (Hfst & _ & Hsome & _).
  refine (conj H (conj Hk (conj Hfst (Hsome _)))).
  cbn [short_curve built ForwardCurve.dates ForwardCurve.prices].
  rewrite Hk. discriminate.
Defined.

(** C5, counterexample: a range that holds no stored date makes [slice]
    raise instead of returning a curve. *)
Lemma slice_outside_range_raises :
  ForwardCurve.__init__ [1; 2; 3] [2; 4; 8] = Ok short_curve
  /\ snd (ForwardCurve.slice 5 6 short_curve) = Raise ValueError
  /\ ~ (exists c', snd (ForwardCurve.slice 5 6 short_curve) = Ok c').
Proof.
  assert (H : ForwardCurve.__init__ [1; 2; 3] [2; 4; 8] = Ok short_curve)
    by reflexivity.
  assert (Hk : captured 5 6 [1; 2; 3] [2; 4; 8] = []).
  { unfold captured, in_range, Rleb. cbn [combine filter fst].
    repeat (destruct (Rle_dec 5 _); [lra|]). reflexivity. }
  assert (Hr : snd (ForwardCurve.slice 5 6 short_curve) = Raise ValueError)
    by (apply (slice_result _ _ _ 5 6 H); exact Hk).
  refine (conj H (conj Hr _)).
  intros [c' Hc']. rewrite Hr in Hc'. discriminate.
Qed.

(** C6 on the market "Gas". *)
Lemma price_forward_terminal_witness :
  let m := gas_model VolatilityModel.Abstract in
  PyDict.get (HJMModel.markets m) "Gas" = Some gas_market
  /\ PyDict.get (Market.curves gas_market) "forward" = Some gas_curve
  /\ ForwardCurve.__init__ [1; 2; 3; 4; 5] [3.0; 3.1; 3.05; 3.2; 3.3]
     = Ok gas_curve
  /\ (forall t,
        HJMModel.price_forward "Gas" "forward" t m
        = (m, Ok (ForwardCurve.get_forward gas_curve
                    (last (ForwardCurve.dates gas_curve) 0)))).
Proof.
  intros m.
  assert (H1 : PyDict.get (HJMModel.markets m) "Gas" = Some gas_market)
    by reflexivity.
  assert (H2 : PyDict.get (Market.curves gas_market) "forward" = Some gas_curve)
    by reflexivity.
  assert (H3 : ForwardCurve.__init__ [1; 2; 3; 4; 5] [3.0; 3.1; 3.05; 3.2; 3.3]
               = Ok gas_curve) by reflexivity.
  refine (conj H1 (conj H2 (conj H3 _))).
  apply (price_forward_terminal m "Gas" "forward" gas_market gas_curve
           _ _ H1 H2 H3).
Defined.

(** C7, amended, on an unknown market "Oil" and an unknown curve "spot". *)
Lemma unknown_name_raises_witness :
  let m := gas_model VolatilityModel.Abstract in
  PyDict.get (HJMModel.markets m) "Oil" = None
  /\ PyDict.get (HJMModel.markets m) "Gas" = Some gas_market
  /\ PyDict.get (Market.curves gas_market) "spot" = None
  /\ HJMModel.forward_dynamics "Oil" "forward" 0 1 m = (m, Raise KeyError)
  /\ HJMModel.price_forward "Gas" "spot" 0 m = (m, Raise AttributeError).
Proof.
  intros m.
  assert (H1 : PyDict.get (HJMModel.markets m) "Oil" = None) by reflexivity.
  assert (H2 : PyDict.get (HJMModel.markets m) "Gas" = Some gas_market)
    by reflexivity.
  assert (H3 : PyDict.get (Market.curves gas_market) "spot" = None)
    by reflexivity.
  refine (conj H1 (conj H2 (conj H3 (conj _ _)))).
  - exact (proj1 (proj1 (unknown_name_raises m "Oil" "forward" 0 1 0) H1)).
  - exact (proj2 (proj2 (unknown_name_raises m "Gas" "spot" 0 1 0)
                    gas_market H2 H3)).
Defined.

(** C7, counterexample: an unknown curve name in a known market does not
    surface as a key-lookup failure. *)
Lemma unknown_curve_is_not_key_error :
  let m := gas_model VolatilityModel.Abstract in
  PyDict.get (HJMModel.markets m) "Gas" = Some gas_market
  /\ PyDict.get (Market.curves gas_market) "spot" = None
  /\ snd (HJMModel.forward_dynamics "Gas" "spot" 0 1 m) = Raise AttributeError
  /\ snd (HJMModel.price_forward "Gas" "spot" 0 m) = Raise AttributeError
  /\ snd (HJMModel.forward_dynamics "Gas" "spot" 0 1 m) <> Raise KeyError
  /\ snd (HJMModel.price_forward "Gas" "spot" 0 m) <> Raise KeyError.
Proof.
  intros m.
  assert (H1 : snd (HJMModel.forward_dynamics "Gas" "spot" 0 1 m)
               = Raise AttributeError).
  { rewrite forward_dynamics_run.
    now rewrite (terminal_unknown_curve m "Gas" "spot" gas_market). }
  assert (H2 : snd (HJMModel.price_forward "Gas" "spot" 0 m)
               = Raise AttributeError).
  { rewrite price_forward_run.
    now rewrite (terminal_unknown_curve m "Gas" "spot" gas_market). }
  refine (conj eq_refl (conj eq_refl (conj H1 (conj H2 (conj _ _))))).
  - rewrite H1. discriminate.
  - rewrite H2. discriminate.
Qed.

(** C2 on a market holding a five-point and a three-point curve. *)
Lemma calibrate_aligns_returns_witness :
  let m := two_curve_model VolatilityModel.Abstract in
  let rs := usable_returns (HJMModel.markets m) in
  rs = [ForwardCurve.log_returns gas_curve;
        ForwardCurve.log_returns short_curve]
  /\ rs <> []
  /\ exists mat : list (list R),
       length mat = 2%nat
       /\ column 0 mat = trailing 2 (ForwardCurve.log_returns gas_curve)
       /\ column 1 mat = trailing 2 (ForwardCurve.log_returns short_curve)
       /\ HJMModel.calibrate m
          = let vr := VolatilityModel.calibrate [VolatilityModel.Arr2 mat]
                        (HJMModel.vol_model m) in
            ({| HJMModel.vol_model := fst vr;
                HJMModel.markets := HJMModel.markets m |},
             _ <-? snd vr ;;
             k <-? VolatilityModel.n_factors (fst vr) ;;
             ev <-? VolatilityModel.explained_variance_ (fst vr) ;;
             Ok (k, ev)).
Proof.
  intros m rs.
  assert (Hrs : rs = [ForwardCurve.log_returns gas_curve;
                      ForwardCurve.log_returns short_curve]) by reflexivity.
  assert (H : rs <> []) by (rewrite Hrs; discriminate).
  refine (conj Hrs (conj H _)).
  destruct (calibrate_aligns_returns m) as (_ & _ & G).
  destruct (G H) as (n & mat & G1 & G2 & _ & G4 & _ & G6 & G7).
  fold rs in G1, G2, G6. rewrite Hrs in G1, G2, G6.
  assert (Hn : n = 2%nat).
  { inversion G1 as [|? ? L1 G1']; subst. inversion G1' as [|? ? L2 _]; subst.
    cbn in L1, L2.
    apply Exists_cons in G2. destruct G2 as [E|G2]; [cbn in E; lia|].
    apply Exists_cons in G2. destruct G2 as [E|G2]; [cbn in E; lia|].
    inversion G2. }
  rewrite Hn in G4, G6. exists mat.
  refine (conj G4 (conj (G6 0%nat _) (conj (G6 1%nat _) G7))); simpl; lia.
Defined.

(** C8 on a two-factor model. *)
Lemma multifactor_sigma_decoupled_witness :
  let decompose := fun (_ : Z) (_ : VolatilityModel.ndarray) =>
                     Ok ([[1; 0]; [0; 1]], [0.75; 0.25]) in
  let self := MultiFactorVolatilityModel.__init__ 2 in
  (0 <= MultiFactorVolatilityModel.n_factors self)%Z
  /\ MultiFactorVolatilityModel.sigma self 0 1
     = [exp (- 0.5 * (1 - 0)); exp (- 0.5 * (1 - 0))]
  /\ Z.of_nat (length (MultiFactorVolatilityModel.sigma self 0 1)) = 2%Z
  /\ forall X,
       MultiFactorVolatilityModel.sigma
         (fst (MultiFactorVolatilityModel.calibrate decompose X self)) 0 1
       = MultiFactorVolatilityModel.sigma self 0 1.
Proof.
  intros decompose self.
  assert (H : (0 <= MultiFactorVolatilityModel.n_factors self)%Z)
    by (simpl; lia).
  refine (conj H (conj eq_refl _)).
  destruct (multifactor_sigma_decoupled decompose self 0 1)
    as (_ & G2 & _ & _ & G4 & _).
  exact (conj (G2 H) G4).
Defined.

(** C9, amended, on a one-point ladder and on [slice(5, 6)] of the
    three-point curve. *)
Lemma construction_needs_one_point_witness :
  length [1] = length [2]
  /\ (1 <= length [1])%nat
  /\ ForwardCurve.__init__ [1; 2; 3] [2; 4; 8] = Ok short_curve
  /\ (exists c, ForwardCurve.__init__ [1] [2] = Ok c
                /\ ForwardCurve.dates c = [1] /\ ForwardCurve.prices c = [2])
  /\ (raises (snd (ForwardCurve.slice 5 6 short_curve))
      <-> filter (in_range 5 6) (ForwardCurve.dates short_curve) = []).
Proof.
  assert (H1 : length [1] = length [2]) by reflexivity.
  assert (H2 : (1 <= length [1])%nat) by (simpl; lia).
  assert (H3 : ForwardCurve.__init__ [1; 2; 3] [2; 4; 8] = Ok short_curve)
    by reflexivity.
  destruct construction_needs_one_point as (_ & G2 & G3).
  exact (conj H1 (conj H2 (conj H3
           (conj (G2 [1] [2] H1 H2) (G3 _ _ short_curve 5 6 H3))))).
Defined.

(** C9, counterexample: a single point builds a curve, and a range holding
    exactly one stored date makes [slice] return a one-point curve. *)
Lemma single_point_curve_builds :
  ForwardCurve.__init__ [1] [2] = Ok (built [1] [2])
  /\ ~ raises (ForwardCurve.__init__ [1] [2])
  /\ ForwardCurve.__init__ [1; 2; 3] [2; 4; 8] = Ok short_curve
  /\ snd (ForwardCurve.slice 3 9 short_curve) = Ok (built [3] [8])
  /\ ~ raises (snd (ForwardCurve.slice 3 9 short_curve)).
Proof.
  assert (H1 : ForwardCurve.__init__ [1] [2] = Ok (built [1] [2]))
    by reflexivity.
  assert (H3 : ForwardCurve.__init__ [1; 2; 3] [2; 4; 8] = Ok short_curve)
    by reflexivity.
  assert (Hk : captured 3 9 [1; 2; 3] [2; 4; 8] = [(3, 8)]).
  { unfold captured, in_range, Rleb. cbn [combine filter fst].
    repeat (destruct (Rle_dec 3 _); try lra; cbn [andb]).
    destruct (Rle_dec 3 9); [reflexivity | lra]. }
  assert (H4 : snd (ForwardCurve.slice 3 9 short_curve) = Ok (built [3] [8])).
  { destruct (slice_result _ _ _ 3 9 H3) as [_ G].
    rewrite G by (rewrite Hk; discriminate). now rewrite Hk. }
  refine (conj H1 (conj _ (conj H3 (conj H4 _)))).
  - intros [e He]. rewrite H1 in He. discriminate.
  - intros [e He]. rewrite H4 in He. discriminate.
Qed.

(** * Further properties of the package *)

(** ** Name mappings *)

Lemma get_setitem_same {A : Type} (d : PyDict.dict A) (k : string) (v : A) :
  PyDict.get (PyDict.setitem d k v) k = Some v.
Proof.
  induction d as [|[k' v'] d IH]; simpl.
  - now rewrite String.eqb_refl.
  - destruct (String.eqb k' k) eqn:E; simpl.
    + now rewrite String.eqb_refl.
    + now rewrite E.
Qed.

Lemma get_setitem_other {A : Type} (d : PyDict.dict A) (k k0 : string) (v : A) :
  k0 <> k -> PyDict.get (PyDict.setitem d k v) k0 = PyDict.get d k0.
Proof.
  intros Hne.
  induction d as [|[k' v'] d IH]; simpl.
  - destruct (String.eqb_spec k k0); [congruence | reflexivity].
  - destruct (String.eqb_spec k' k) as [->|Hk]; simpl.
    + destruct (String.eqb_spec k k0); [congruence | reflexivity].
    + destruct (String.eqb k' k0); [reflexivity | exact IH].
Qed.

Lemma setitem_absent {A : Type} (d : PyDict.dict A) (k : string) (v : A) :
  PyDict.get d k = None -> PyDict.setitem d k v = d ++ [(k, v)].
Proof.
  induction d as [|[k' v'] d IH]; simpl; [reflexivity|].
  destruct (String.eqb k' k); [discriminate|].
  intros H. now rewrite IH.
Qed.

Lemma keys_setitem_present {A : Type} (d : PyDict.dict A) (k : string) (v : A) :
  PyDict.get d k <> None -> PyDict.keys (PyDict.setitem d k v) = PyDict.keys d.
Proof.
  unfold PyDict.keys.
  induction d as [|[k' v'] d IH]; simpl; [congruence|].
  destruct (String.eqb_spec k' k) as [->|Hk]; simpl.
  - reflexivity.
  - intros H. now rewrite IH.
Qed.

Lemma get_in_keys {A : Type} (d : PyDict.dict A) (k : string) :
  In k (PyDict.keys d) <-> exists v, PyDict.get d k = Some v.
Proof.
  unfold PyDict.keys.
  induction d as [|[k' v'] d IH]; simpl.
  - split; [tauto | intros [v Hv]; discriminate].
  - destruct (String.eqb_spec k' k) as [->|Hk].
    + split; [eauto | auto].
    + rewrite <- IH. tauto.
Qed.

Lemma keys_setitem_nodup {A : Type} (d : PyDict.dict A) (k : string) (v : A) :
  NoDup (PyDict.keys d) -> NoDup (PyDict.keys (PyDict.setitem d k v)).
Proof.
  intros Hnd.
  destruct (PyDict.get d k) as [v0|] eqn:E.
  - rewrite keys_setitem_present by congruence. exact Hnd.
  - rewrite setitem_absent by exact E.
    unfold PyDict.keys in *. rewrite map_app. simpl.
    apply NoDup_app_remove_l with (l := []). simpl.
    apply Permutation_NoDup with (l := k :: map fst d).
    + apply Permutation_cons_append.
    + constructor; [|exact Hnd].
      intros Hin. apply (get_in_keys d k) in Hin.
      destruct Hin as [w Hw]. congruence.
Qed.

(** X1: after [add_forward_curve(name, curve)] the market answers [curve]
    for [name] and what it answered before for every other name; its name,
    region and commodity are as they were. *)
Theorem add_forward_curve_lookup (m : Market.t) (cn : string)
  (c : ForwardCurve.t) :
  let m' := fst (Market.add_forward_curve cn c m) in
  snd (Market.add_forward_curve cn c m) = Ok tt
  /\ Market.get_curve m' cn = Some c
  /\ (forall other, other <> cn ->
        Market.get_curve m' other = Market.get_curve m other)
  /\ Market.name m' = Market.name m
  /\ Market.region m' = Market.region m
  /\ Market.commodity m' = Market.commodity m.
Proof.
  cbn. unfold Market.get_curve. cbn.
  repeat split.
  - apply get_setitem_same.
  - intros other Hne. now apply get_setitem_other.
Qed.

(** X2: [list_curves] lists exactly the names [get_curve] answers for; a new
    name goes last, a known name keeps its place; on a market built from a
    fresh one by [add_forward_curve] no name is listed twice. *)
Theorem list_curves_names (m : Market.t) (cn : string) (c : ForwardCurve.t) :
  let m' := fst (Market.add_forward_curve cn c m) in
  (forall name, In name (Market.list_curves m)
                <-> exists c0, Market.get_curve m name = Some c0)
  /\ (Market.get_curve m cn = None ->
        Market.list_curves m' = Market.list_curves m ++ [cn])
  /\ (Market.get_curve m cn <> None ->
        Market.list_curves m' = Market.list_curves m)
  /\ (market_reachable m ->
        NoDup (Market.list_curves m) /\ NoDup (Market.list_curves m')).
Proof.
  cbn. unfold Market.list_curves, Market.get_curve. cbn.
  split; [|split; [|split]].
  - intros name. apply get_in_keys.
  - intros H. rewrite setitem_absent by exact H.
    unfold PyDict.keys. now rewrite map_app.
  - apply keys_setitem_present.
  - intros Hr.
    assert (Hnd : NoDup (PyDict.keys (Market.curves m))).
    { induction Hr as [n r cm|m0 cn0 c0 Hr IH]; cbn.
      - constructor.
      - now apply keys_setitem_nodup. }
    split; [exact Hnd | now apply keys_setitem_nodup].
Qed.

Lemma last_as_nth (l : list R) : last l 0 = nth (length l - 1) l 0.
Proof.
  induction l as [|u [|w l] IH]; try reflexivity.
  change (last (w :: l) 0 = nth (length (w :: l)) (u :: w :: l) 0) .
  rewrite IH. simpl. now rewrite Nat.sub_0_r.
Qed.

(** X3: [add_market] registers the market under its own name, replacing a
    market of that name in place (last write wins) and leaving every other
    name and the volatility model as they were. *)
Theorem add_market_registers {V : Type} (m : HJMModel.t V) (mk : Market.t) :
  let m' := fst (HJMModel.add_market mk m) in
  snd (HJMModel.add_market mk m) = Ok tt
  /\ PyDict.get (HJMModel.markets m') (Market.name mk) = Some mk
  /\ (forall other, other <> Market.name mk ->
        PyDict.get (HJMModel.markets m') other
        = PyDict.get (HJMModel.markets m) other)
  /\ HJMModel.vol_model m' = HJMModel.vol_model m
  /\ (PyDict.get (HJMModel.markets m) (Market.name mk) = None ->
        PyDict.keys (HJMModel.markets m')
        = PyDict.keys (HJMModel.markets m) ++ [Market.name mk])
  /\ (PyDict.get (HJMModel.markets m) (Market.name mk) <> None ->
        PyDict.keys (HJMModel.markets m') = PyDict.keys (HJMModel.markets m)).
Proof.
  cbn. repeat split.
  - apply get_setitem_same.
  - intros other Hne. now apply get_setitem_other.
  - intros H. rewrite setitem_absent by exact H.
    unfold PyDict.keys. now rewrite map_app.
  - apply keys_setitem_present.
Qed.

Section Registration.

Context {V : Type} {VM : VolatilityModel.Model V}.

(** X4: a curve of at least two points with positive prices and strictly
    monotonic maturities, added to a market that is then registered, is
    priced by [price_forward] at its last stored price, for every [t]. *)
Theorem price_forward_after_registration
  (m0 : HJMModel.t V) (mk0 : Market.t) (cn : string)
  (d p : list R) (c : ForwardCurve.t) (t : R) :
  ForwardCurve.__init__ d p = Ok c ->
  (2 <= length d)%nat ->
  Forall (fun u => 0 < u) p ->
  strictly_monotonic d ->
  let mk := fst (Market.add_forward_curve cn c mk0) in
  let m := fst (HJMModel.add_market mk m0) in
  HJMModel.price_forward (Market.name mk0) cn t m = (m, Ok (last p 0)).
Proof.
  intros Hc Hn Hpos Hmono mk m.
  rewrite price_forward_run.
  assert (Hm : PyDict.get (HJMModel.markets m) (Market.name mk0) = Some mk)
    by apply get_setitem_same.
  assert (Hcv : PyDict.get (Market.curves mk) cn = Some c)
    by apply get_setitem_same.
  rewrite (terminal_registered m _ cn mk c d p Hm Hcv Hc).
  cbn [rbind fst snd].
  destruct (init_inv d p c Hc) as (E & _ & Hb).
  rewrite Hb at 2. cbn [built ForwardCurve.dates].
  rewrite !last_as_nth, <- E.
  rewrite (get_forward_at_knot d p c (length d - 1) Hc); try assumption;
    try lia; try reflexivity.
  destruct Hmono; [now apply increasing_nodup | now apply decreasing_nodup].
Qed.

End Registration.

(** X4 on the market "Gas". *)
Lemma price_forward_after_registration_witness :
  ForwardCurve.__init__ [1; 2; 3; 4; 5] [3.0; 3.1; 3.05; 3.2; 3.3]
  = Ok gas_curve
  /\ (2 <= length [1; 2; 3; 4; 5]%R)%nat
  /\ Forall (fun u => 0 < u) [3.0; 3.1; 3.05; 3.2; 3.3]
  /\ strictly_monotonic [1; 2; 3; 4; 5]
  /\ HJMModel.price_forward "Gas" "forward" 0
       (gas_model VolatilityModel.Abstract)
     = (gas_model VolatilityModel.Abstract, Ok 3.3).
Proof.
  assert (H1 : ForwardCurve.__init__ [1; 2; 3; 4; 5] [3.0; 3.1; 3.05; 3.2; 3.3]
               = Ok gas_curve) by reflexivity.
  assert (H2 : (2 <= length [1; 2; 3; 4; 5]%R)%nat) by (simpl; lia).
  assert (H3 : Forall (fun u => 0 < u) [3.0; 3.1; 3.05; 3.2; 3.3])
    by (repeat constructor; lra).
  assert (H4 : strictly_monotonic [1; 2; 3; 4; 5])
    by (left; repeat constructor; lra).
  refine (conj H1 (conj H2 (conj H3 (conj H4 _)))).
  exact (price_forward_after_registration
           (HJMModel.__init__ VolatilityModel.Abstract)
           (Market.__init__ "Gas" None "gas") "forward"
           _ _ gas_curve 0 H1 H2 H3 H4).
Defined.

(** ** The expected forward price *)

Lemma sum_squares_nonneg (s : list R) : 0 <= Np.sum (map (fun x => x ^ 2) s).
Proof.
  unfold Np.sum.
  induction s as [|u s IH]; simpl in *.
  - lra.
  - pose proof (pow2_ge_0 u) as H. simpl in H. lra.
Qed.

Lemma variance_sign (sv : VolatilityModel.sigma_value) (t0 t1 : R) :
  (t0 <= t1 -> 0 <= variance sv t0 t1)
  /\ (t1 <= t0 -> variance sv t0 t1 <= 0)
  /\ variance sv t0 t0 = 0.
Proof.
  assert (H : exists q, 0 <= q /\ variance sv t0 t1 = q * (t1 - t0)
                        /\ variance sv t0 t0 = q * (t0 - t0)).
  { destruct sv as [s|s]; cbn [variance].
    - exists (s ^ 2). split; [apply pow2_ge_0 | auto].
    - eexists. split; [apply sum_squares_nonneg | auto]. }
  destruct H as (q & Hq & -> & ->).
  repeat split; intros; nra.
Qed.

Lemma exp_monotone (r u : R) : r <= u -> exp r <= exp u.
Proof.
  intros [H| ->]; [left; now apply exp_increasing | lra].
Qed.

Lemma terminal_price (d p : list R) (c : ForwardCurve.t) :
  ForwardCurve.__init__ d p = Ok c ->
  (2 <= length d)%nat ->
  Forall (fun u => 0 < u) p ->
  strictly_monotonic d ->
  ForwardCurve.get_forward c (last (ForwardCurve.dates c) 0) = last p 0.
Proof.
  intros Hc Hn Hpos Hmono.
  destruct (init_inv d p c Hc) as (E & _ & Hb).
  rewrite Hb at 2. cbn [built ForwardCurve.dates].
  rewrite !last_as_nth, <- E.
  apply (get_forward_at_knot d p c (length d - 1) Hc); try assumption; try lia.
  destruct Hmono; [now apply increasing_nodup | now apply decreasing_nodup].
Qed.

Section ExpectedPrice.

Context {V : Type} {VM : VolatilityModel.Model V}.

(** X5 (floats idealised as reals): for registered names, a curve of at
    least two points with positive prices and strictly monotonic
    maturities, and a [sigma] that returns, the expected price is not
    negative and the model is left as it was; the price does not exceed the
    last stored price when [t1 >= t0], is not below it when [t1 <= t0]
    (there is no check of the order of the two times), and for [t1 = t0] it
    is the last stored price, which is what [price_forward] returns. *)
Theorem forward_dynamics_discount (m : HJMModel.t V) (mn cn : string)
  (t0 t1 : R) (mk : Market.t) (c : ForwardCurve.t) (d p : list R)
  (sv : VolatilityModel.sigma_value) :
  PyDict.get (HJMModel.markets m) mn = Some mk ->
  PyDict.get (Market.curves mk) cn = Some c ->
  ForwardCurve.__init__ d p = Ok c ->
  (2 <= length d)%nat ->
  Forall (fun u => 0 < u) p ->
  strictly_monotonic d ->
  VolatilityModel.sigma (HJMModel.vol_model m) t0
    (last (ForwardCurve.dates c) 0) = Ok sv ->
  exists F1,
    HJMModel.forward_dynamics mn cn t0 t1 m = (m, Ok F1)
    /\ 0 <= F1
    /\ (t0 <= t1 -> F1 <= last p 0)
    /\ (t1 <= t0 -> last p 0 <= F1)
    /\ HJMModel.forward_dynamics mn cn t0 t0 m = (m, Ok (last p 0))
    /\ (forall t,
          HJMModel.price_forward mn cn t m
          = HJMModel.forward_dynamics mn cn t0 t0 m).
Proof.
  intros Hm Hcv Hc Hn Hpos Hmono Hs.
  pose proof (terminal_registered m mn cn mk c d p Hm Hcv Hc) as Ht.
  pose proof (terminal_price d p c Hc Hn Hpos Hmono) as HF0.
  assert (Hlast : 0 < last p 0).
  { rewrite <- HF0. apply exp_pos. }
  assert (Hsame : HJMModel.forward_dynamics mn cn t0 t0 m
                  = (m, Ok (last p 0))).
  { rewrite forward_dynamics_run, Ht.
    cbn [rbind fst snd]. rewrite Hs. cbn [rbind].
    destruct (variance_sign sv t0 t0) as (_ & _ & ->).
    replace (- 0.5 * 0) with 0 by lra. rewrite exp_0, HF0.
    do 2 f_equal. lra. }
  exists (last p 0 * exp (- 0.5 * variance sv t0 t1)).
  split.
  { rewrite forward_dynamics_run, Ht. cbn [rbind fst snd]. rewrite Hs.
    cbn [rbind]. now rewrite HF0. }
  destruct (variance_sign sv t0 t1) as (Hge & Hle & _).
  pose proof (exp_pos (- 0.5 * variance sv t0 t1)) as Hexp.
  split; [|split; [|split; [|split]]].
  - nra.
  - intros H. specialize (Hge H).
    assert (exp (- 0.5 * variance sv t0 t1) <= 1)
      by (rewrite <- exp_0; apply exp_monotone; lra).
    nra.
  - intros H. specialize (Hle H).
    assert (1 <= exp (- 0.5 * variance sv t0 t1))
      by (rewrite <- exp_0; apply exp_monotone; lra).
    nra.
  - exact Hsame.
  - intros t. rewrite Hsame, price_forward_run, Ht.
    cbn [rbind fst snd]. now rewrite HF0.
Qed.

End ExpectedPrice.

(** X5 on the market "Gas" with the exponential model. *)
Lemma forward_dynamics_discount_witness :
  let VM := ExponentialVolatilityModel.Model (fun _ _ _ _ => Raise ValueError) in
  let m := gas_model (ExponentialVolatilityModel.__init__ 0.1 0.0) in
  PyDict.get (HJMModel.markets m) "Gas" = Some gas_market
  /\ PyDict.get (Market.curves gas_market) "forward" = Some gas_curve
  /\ ForwardCurve.__init__ [1; 2; 3; 4; 5] [3.0; 3.1; 3.05; 3.2; 3.3]
     = Ok gas_curve
  /\ (2 <= length [1; 2; 3; 4; 5]%R)%nat
  /\ Forall (fun u => 0 < u) [3.0; 3.1; 3.05; 3.2; 3.3]
  /\ strictly_monotonic [1; 2; 3; 4; 5]
  /\ exists F1,
       HJMModel.forward_dynamics "Gas" "forward" 0 1 m = (m, Ok F1)
       /\ 0 <= F1
       /\ (0 <= 1 -> F1 <= 3.3).
Proof.
  intros VM m.
  assert (H1 : PyDict.get (HJMModel.markets m) "Gas" = Some gas_market)
    by reflexivity.
  assert (H2 : PyDict.get (Market.curves gas_market) "forward" = Some gas_curve)
    by reflexivity.
  assert (H3 : ForwardCurve.__init__ [1; 2; 3; 4; 5] [3.0; 3.1; 3.05; 3.2; 3.3]
               = Ok gas_curve) by reflexivity.
  assert (H4 : (2 <= length [1; 2; 3; 4; 5]%R)%nat) by (simpl; lia).
  assert (H5 : Forall (fun u => 0 < u) [3.0; 3.1; 3.05; 3.2; 3.3])
    by (repeat constructor; lra).
  assert (H6 : strictly_monotonic [1; 2; 3; 4; 5])
    by (left; repeat constructor; lra).
  refine (conj H1 (conj H2 (conj H3 (conj H4 (conj H5 (conj H6 _)))))).
  destruct (@forward_dynamics_discount _ VM m "Gas" "forward" 0 1 gas_market
              gas_curve _ _ _ H1 H2 H3 H4 H5 H6 eq_refl)
    as (F1 & G1 & G2 & G3 & _).
  exists F1. exact (conj G1 (conj G2 G3)).
Defined.

(** ** The exponential model *)

(** X6 (floats idealised as reals): the exponential volatility equals
    [gamma] at zero horizon and for [k = 0]; for [gamma >= 0] it is not
    negative, and for [gamma >= 0], [k >= 0] it does not increase as the
    horizon [T - t] grows and does not exceed [gamma] for [T >= t]. *)
Theorem exponential_sigma_shape (self : ExponentialVolatilityModel.t)
  (t T : R) :
  let gamma := ExponentialVolatilityModel.gamma self in
  let k := ExponentialVolatilityModel.k self in
  ExponentialVolatilityModel.sigma self T T = gamma
  /\ (k = 0 -> ExponentialVolatilityModel.sigma self t T = gamma)
  /\ (0 <= gamma -> 0 <= ExponentialVolatilityModel.sigma self t T)
  /\ (0 <= gamma -> 0 <= k ->
        forall t' T', T - t <= T' - t' ->
          ExponentialVolatilityModel.sigma self t' T'
          <= ExponentialVolatilityModel.sigma self t T)
  /\ (0 <= gamma -> 0 <= k -> t <= T ->
        ExponentialVolatilityModel.sigma self t T <= gamma).
Proof.
  intros gamma k. unfold ExponentialVolatilityModel.sigma. fold gamma k.
  split; [|split; [|split; [|split]]].
  - replace (- k * (T - T)) with 0 by ring. rewrite exp_0. ring.
  - intros ->. replace (- 0 * (T - t)) with 0 by ring. rewrite exp_0. ring.
  - intros Hg. apply Rmult_le_pos; [exact Hg | left; apply exp_pos].
  - intros Hg Hk t' T' Hle.
    apply Rmult_le_compat_l; [exact Hg|].
    apply exp_monotone. nra.
  - intros Hg Hk Hle.
    assert (exp (- k * (T - t)) <= 1)
      by (rewrite <- exp_0; apply exp_monotone; nra).
    nra.
Qed.

Lemma exp_square (a : R) : exp a ^ 2 = exp (2 * a).
Proof.
  simpl. rewrite Rmult_1_r, <- exp_plus. f_equal. ring.
Qed.

Section ExponentialPrice.

Variable curve_fit :
  (R -> R -> R -> R) -> VolatilityModel.ndarray -> VolatilityModel.ndarray ->
  R * R -> result (R * R).

(** X7: with the exponential model, for registered names, the expected
    price is [F0 * exp(-0.5 * gamma^2 * exp(-2k(T - t0)) * (t1 - t0))]. *)
Theorem forward_dynamics_exponential
  (m : HJMModel.t ExponentialVolatilityModel.t) (mn cn : string) (t0 t1 : R)
  (mk : Market.t) (c : ForwardCurve.t) (d p : list R) :
  PyDict.get (HJMModel.markets m) mn = Some mk ->
  PyDict.get (Market.curves mk) cn = Some c ->
  ForwardCurve.__init__ d p = Ok c ->
  let VM := ExponentialVolatilityModel.Model curve_fit in
  let T := last (ForwardCurve.dates c) 0 in
  let gamma := ExponentialVolatilityModel.gamma (HJMModel.vol_model m) in
  let k := ExponentialVolatilityModel.k (HJMModel.vol_model m) in
  HJMModel.forward_dynamics mn cn t0 t1 m
  = (m, Ok (ForwardCurve.get_forward c T
            * exp (- 0.5 * (gamma ^ 2 * exp (- 2 * k * (T - t0))
                            * (t1 - t0))))).
Proof.
  intros Hm Hcv Hc VM T gamma k.
  rewrite forward_dynamics_run.
  rewrite (terminal_registered m mn cn mk c d p Hm Hcv Hc).
  cbn [rbind fst snd VolatilityModel.sigma VM ExponentialVolatilityModel.Model
       variance].
  unfold ExponentialVolatilityModel.sigma. fold T gamma k.
  do 3 f_equal. f_equal.
  rewrite Rpow_mult_distr, exp_square.
  replace (2 * (- k * (T - t0))) with (- 2 * k * (T - t0)) by ring.
  reflexivity.
Qed.

End ExponentialPrice.

(** X7 on the market "Gas". *)
Lemma forward_dynamics_exponential_witness :
  let fit := fun (_ : R -> R -> R -> R) (_ _ : VolatilityModel.ndarray)
                 (_ : R * R) => @Raise (R * R) ValueError in
  let VM := ExponentialVolatilityModel.Model fit in
  let m := gas_model (ExponentialVolatilityModel.__init__ 0.2 0.1) in
  PyDict.get (HJMModel.markets m) "Gas" = Some gas_market
  /\ PyDict.get (Market.curves gas_market) "forward" = Some gas_curve
  /\ ForwardCurve.__init__ [1; 2; 3; 4; 5] [3.0; 3.1; 3.05; 3.2; 3.3]
     = Ok gas_curve
  /\ HJMModel.forward_dynamics "Gas" "forward" 0 1 m
     = (m, Ok (ForwardCurve.get_forward gas_curve 5
               * exp (- 0.5 * (0.2 ^ 2 * exp (- 2 * 0.1 * (5 - 0))
                               * (1 - 0))))).
Proof.
  intros fit VM m.
  assert (H1 : PyDict.get (HJMModel.markets m) "Gas" = Some gas_market)
    by reflexivity.
  assert (H2 : PyDict.get (Market.curves gas_market) "forward" = Some gas_curve)
    by reflexivity.
  assert (H3 : ForwardCurve.__init__ [1; 2; 3; 4; 5] [3.0; 3.1; 3.05; 3.2; 3.3]
               = Ok gas_curve) by reflexivity.
  refine (conj H1 (conj H2 (conj H3 _))).
  exact (forward_dynamics_exponential fit m "Gas" "forward" 0 1 gas_market
           gas_curve _ _ H1 H2 H3).
Defined.

(** ** The multi-factor model *)

Lemma sum_squares_repeat (u : R) (n : nat) :
  Np.sum (map (fun x => x ^ 2) (repeat u n)) = INR n * u ^ 2.
Proof.
  unfold Np.sum.
  induction n as [|n IH].
  - simpl. ring.
  - rewrite S_INR. cbn [repeat map fold_right]. rewrite IH. ring.
Qed.

Section MultiFactorPrice.

Variable decompose :
  Z -> VolatilityModel.ndarray -> result (list (list R) * list R).

(** X8: with the multi-factor model, for registered names, the expected
    price is [F0 * exp(-0.5 * n * exp(-(T - t0)) * (t1 - t0))], [n] being
    [n_factors], or 0 when [n_factors] is negative. *)
Theorem forward_dynamics_multifactor
  (m : HJMModel.t MultiFactorVolatilityModel.t) (mn cn : string) (t0 t1 : R)
  (mk : Market.t) (c : ForwardCurve.t) (d p : list R) :
  PyDict.get (HJMModel.markets m) mn = Some mk ->
  PyDict.get (Market.curves mk) cn = Some c ->
  ForwardCurve.__init__ d p = Ok c ->
  let VM := MultiFactorVolatilityModel.Model decompose in
  let T := last (ForwardCurve.dates c) 0 in
  let n := Z.max 0 (MultiFactorVolatilityModel.n_factors (HJMModel.vol_model m)) in
  HJMModel.forward_dynamics mn cn t0 t1 m
  = (m, Ok (ForwardCurve.get_forward c T
            * exp (- 0.5 * (IZR n * exp (- (T - t0)) * (t1 - t0))))).
Proof.
  intros Hm Hcv Hc VM T n.
  rewrite forward_dynamics_run.
  rewrite (terminal_registered m mn cn mk c d p Hm Hcv Hc).
  cbn [rbind fst snd VolatilityModel.sigma VM MultiFactorVolatilityModel.Model
       variance].
  unfold MultiFactorVolatilityModel.sigma. fold T.
  rewrite sum_squares_repeat, exp_square.
  rewrite INR_IZR_INZ.
  replace (Z.of_nat (Z.to_nat (MultiFactorVolatilityModel.n_factors
                                 (HJMModel.vol_model m)))) with n
    by (unfold n; lia).
  replace (2 * (- 0.5 * (T - t0))) with (- (T - t0)) by lra.
  reflexivity.
Qed.

(** X9: a fresh multi-factor model exposes what its PCA object holds, and
    [calibrate] keeps it so, whether the decomposition succeeds or raises:
    the loadings and the explained variance are both set or both unset, and
    the PCA object keeps the number of components it was built for. *)
Theorem multifactor_mirrors_pca (n : Z) (self : MultiFactorVolatilityModel.t)
  (X : VolatilityModel.ndarray) :
  mirrors_pca (MultiFactorVolatilityModel.__init__ n)
  /\ (mirrors_pca self ->
        mirrors_pca (fst (MultiFactorVolatilityModel.calibrate decompose X self)))
  /\ (snd (MultiFactorVolatilityModel.calibrate decompose X self) = Ok tt ->
        MultiFactorVolatilityModel.components_
          (fst (MultiFactorVolatilityModel.calibrate decompose X self)) <> None)
  /\ (forall e,
        snd (MultiFactorVolatilityModel.calibrate decompose X self) = Raise e ->
        fst (MultiFactorVolatilityModel.calibrate decompose X self) = self).
Proof.
  unfold mirrors_pca, MultiFactorVolatilityModel.calibrate, PCA.fit.
  split; [|split; [|split]].
  - cbn. tauto.
  - intros (H1 & H2 & H3 & H4).
    destruct (decompose _ X) as [[c r]|e]; cbn.
    + repeat split; try assumption; discriminate.
    + repeat split; try assumption; apply H4.
  - destruct (decompose _ X) as [[c r]|e]; cbn; [discriminate | discriminate].
  - intros e. destruct (decompose _ X) as [[c r]|e']; cbn; [discriminate|].
    intros _. now destruct self.
Qed.

End MultiFactorPrice.

(** ** Calibration through the orchestrator *)

Lemma calibrate_reaches_model {V : Type} {VM : VolatilityModel.Model V}
  (m : HJMModel.t V) :
  usable_returns (HJMModel.markets m) <> [] ->
  exists (n : nat) (mat : list (list R)),
    HJMModel.py_min (map (@length R) (usable_returns (HJMModel.markets m)))
    = Ok n
    /\ Forall (fun r => (1 <= n <= length r)%nat)
         (usable_returns (HJMModel.markets m))
    /\ Np.column_stack (map (trailing n) (usable_returns (HJMModel.markets m)))
       = Ok mat
    /\ HJMModel.calibrate m
       = let vr := VolatilityModel.calibrate [VolatilityModel.Arr2 mat]
                     (HJMModel.vol_model m) in
         ({| HJMModel.vol_model := fst vr;
             HJMModel.markets := HJMModel.markets m |},
          _ <-? snd vr ;;
          k <-? VolatilityModel.n_factors (fst vr) ;;
          ev <-? VolatilityModel.explained_variance_ (fst vr) ;;
          Ok (k, ev)).
Proof.
  set (rs := usable_returns (HJMModel.markets m)). intros Hrs.
  assert (Hlens : map (@length R) rs <> [])
    by (destruct rs; [congruence | discriminate]).
  destruct (py_min_spec _ Hlens) as (n & Hmin & Hle & Hin).
  assert (Hbounds : Forall (fun r => (1 <= n <= length r)%nat) rs).
  { apply Forall_forall. intros r Hr. split.
    - apply in_map_iff in Hin. destruct Hin as (r0 & <- & Hr0).
      pose proof (usable_returns_nonempty (HJMModel.markets m)) as Hall.
      rewrite Forall_forall in Hall. now apply Hall.
    - rewrite Forall_forall in Hle. apply Hle. now apply in_map. }
  assert (Hcut : map (fun r => Np.slice_from r (- Z.of_nat n)) rs
                 = map (trailing n) rs).
  { apply map_ext_in. intros r Hr. apply slice_from_trailing.
    rewrite Forall_forall in Hbounds. now apply Hbounds. }
  destruct (column_stack_columns (map (trailing n) rs) n)
    as (mat & Hmat & _).
  { destruct rs; [congruence | discriminate]. }
  { apply Forall_map. eapply Forall_impl; [|exact Hbounds].
    intros r [_ Hr]. now apply trailing_length. }
  exists n, mat.
  split; [exact Hmin|]. split; [exact Hbounds|]. split; [exact Hmat|].
  rewrite calibrate_run, collect_returns_usable. fold rs.
  rewrite Hmin, Hcut, Hmat. reflexivity.
Qed.

Lemma calibrate_no_returns {V : Type} {VM : VolatilityModel.Model V}
  (m : HJMModel.t V) :
  usable_returns (HJMModel.markets m) = [] ->
  HJMModel.calibrate m = (m, Raise ValueError).
Proof.
  intros Hrs. rewrite calibrate_run, collect_returns_usable, Hrs. reflexivity.
Qed.

(** X10: [HJMModel.calibrate] on an exponential model never succeeds and
    leaves the model as it was: it hands [calibrate] one matrix where the
    exponential model takes two arrays, so it raises [TypeError], or
    [ValueError] when no curve has two points. *)
Theorem calibrate_exponential_raises
  (curve_fit : (R -> R -> R -> R) -> VolatilityModel.ndarray ->
               VolatilityModel.ndarray -> R * R -> result (R * R))
  (m : HJMModel.t ExponentialVolatilityModel.t) :
  let VM := ExponentialVolatilityModel.Model curve_fit in
  fst (HJMModel.calibrate m) = m
  /\ (usable_returns (HJMModel.markets m) = [] ->
        snd (HJMModel.calibrate m) = Raise ValueError)
  /\ (usable_returns (HJMModel.markets m) <> [] ->
        snd (HJMModel.calibrate m) = Raise TypeError).
Proof.
  intros VM.
  destruct (usable_returns (HJMModel.markets m)) as [|r rs] eqn:E.
  - rewrite (calibrate_no_returns m E).
    repeat split; congruence.
  - destruct (calibrate_reaches_model m) as (n & mat & _ & _ & _ & ->);
      [congruence|].
    cbn. repeat split; try congruence. now destruct m.
Qed.

(** X11: on the abstract volatility model, [forward_dynamics] on registered
    names and [calibrate] on usable curves raise [NotImplementedError],
    [calibrate] without a usable curve raises [ValueError], and the model is
    left as it was. *)
Theorem abstract_model_raises (m : HJMModel.t VolatilityModel.abstract)
  (mn cn : string) (t0 t1 : R) (mk : Market.t) (c : ForwardCurve.t)
  (d p : list R) :
  PyDict.get (HJMModel.markets m) mn = Some mk ->
  PyDict.get (Market.curves mk) cn = Some c ->
  ForwardCurve.__init__ d p = Ok c ->
  HJMModel.forward_dynamics mn cn t0 t1 m = (m, Raise NotImplementedError)
  /\ (usable_returns (HJMModel.markets m) <> [] ->
        HJMModel.calibrate m = (m, Raise NotImplementedError))
  /\ (usable_returns (HJMModel.markets m) = [] ->
        HJMModel.calibrate m = (m, Raise ValueError)).
Proof.
  intros Hm Hcv Hc. split; [|split].
  - rewrite forward_dynamics_run.
    now rewrite (terminal_registered m mn cn mk c d p Hm Hcv Hc).
  - intros Hrs.
    destruct (calibrate_reaches_model m Hrs) as (n & mat & _ & _ & _ & ->).
    cbn. now destruct m.
  - apply calibrate_no_returns.
Qed.

(** X12: [HJMModel.calibrate] on a multi-factor model with usable curves
    runs the decomposition on the aligned matrix, for the number of
    components of the PCA object.  When it succeeds, the loadings and the
    explained variance of the model are its result, [n_factors] and the
    markets are as they were, and [n_factors] and the explained variance are
    what is printed; when it raises, the exception propagates and the model
    is left as it was. *)
Theorem calibrate_multifactor
  (decompose : Z -> VolatilityModel.ndarray ->
               result (list (list R) * list R))
  (m : HJMModel.t MultiFactorVolatilityModel.t) :
  usable_returns (HJMModel.markets m) <> [] ->
  let VM := MultiFactorVolatilityModel.Model decompose in
  let vm := HJMModel.vol_model m in
  exists (n : nat) (mat : list (list R)),
    HJMModel.py_min (map (@length R) (usable_returns (HJMModel.markets m)))
    = Ok n
    /\ Np.column_stack (map (trailing n) (usable_returns (HJMModel.markets m)))
       = Ok mat
    /\ (forall comps ratios,
          decompose (PCA.n_components (MultiFactorVolatilityModel.pca vm))
            (VolatilityModel.Arr2 mat) = Ok (comps, ratios) ->
          let m' := fst (HJMModel.calibrate m) in
          snd (HJMModel.calibrate m)
          = Ok (MultiFactorVolatilityModel.n_factors vm, Some ratios)
          /\ MultiFactorVolatilityModel.components_ (HJMModel.vol_model m')
             = Some comps
          /\ MultiFactorVolatilityModel.explained_variance_
               (HJMModel.vol_model m') = Some ratios
          /\ MultiFactorVolatilityModel.n_factors (HJMModel.vol_model m')
             = MultiFactorVolatilityModel.n_factors vm
          /\ HJMModel.markets m' = HJMModel.markets m)
    /\ (forall e,
          decompose (PCA.n_components (MultiFactorVolatilityModel.pca vm))
            (VolatilityModel.Arr2 mat) = Raise e ->
          HJMModel.calibrate m = (m, Raise e)).
Proof.
  intros Hrs VM vm.
  destruct (calibrate_reaches_model m Hrs) as (n & mat & Hmin & _ & Hmat & Hcal).
  exists n, mat. split; [exact Hmin|]. split; [exact Hmat|].
  rewrite Hcal.
  cbn [VolatilityModel.calibrate VolatilityModel.n_factors
       VolatilityModel.explained_variance_ VM MultiFactorVolatilityModel.Model].
  unfold MultiFactorVolatilityModel.calibrate, PCA.fit. fold vm.
  split.
  - intros comps ratios ->. cbn. auto.
  - intros e ->. cbn. unfold vm. destruct m as [[nf pca cs ev] mks].
    cbn. now destruct pca.
Qed.

(** X11 on the market "Gas". *)
Lemma abstract_model_raises_witness :
  let m := gas_model VolatilityModel.Abstract in
  PyDict.get (HJMModel.markets m) "Gas" = Some gas_market
  /\ PyDict.get (Market.curves gas_market) "forward" = Some gas_curve
  /\ ForwardCurve.__init__ [1; 2; 3; 4; 5] [3.0; 3.1; 3.05; 3.2; 3.3]
     = Ok gas_curve
  /\ usable_returns (HJMModel.markets m) <> []
  /\ HJMModel.forward_dynamics "Gas" "forward" 0 1 m
     = (m, Raise NotImplementedError)
  /\ HJMModel.calibrate m = (m, Raise NotImplementedError).
Proof.
  intros m.
  assert (H1 : PyDict.get (HJMModel.markets m) "Gas" = Some gas_market)
    by reflexivity.
  assert (H2 : PyDict.get (Market.curves gas_market) "forward" = Some gas_curve)
    by reflexivity.
  assert (H3 : ForwardCurve.__init__ [1; 2; 3; 4; 5] [3.0; 3.1; 3.05; 3.2; 3.3]
               = Ok gas_curve) by reflexivity.
  assert (H4 : usable_returns (HJMModel.markets m) <> [])
    by (cbn; discriminate).
  destruct (abstract_model_raises m "Gas" "forward" 0 1 gas_market gas_curve
              _ _ H1 H2 H3) as (G1 & G2 & _).
  exact (conj H1 (conj H2 (conj H3 (conj H4 (conj G1 (G2 H4)))))).
Defined.

(** X12 on a two-factor model over the market of two curves, with a
    decomposition that answers fixed loadings. *)
Lemma calibrate_multifactor_witness :
  let decompose := fun (_ : Z) (_ : VolatilityModel.ndarray) =>
                     Ok ([[1; 0]; [0; 1]], [0.75; 0.25]) in
  let VM := MultiFactorVolatilityModel.Model decompose in
  let m := two_curve_model (MultiFactorVolatilityModel.__init__ 2) in
  usable_returns (HJMModel.markets m) <> []
  /\ snd (HJMModel.calibrate m) = Ok (2%Z, Some [0.75; 0.25])
  /\ MultiFactorVolatilityModel.components_
       (HJMModel.vol_model (fst (HJMModel.calibrate m)))
     = Some [[1; 0]; [0; 1]].
Proof.
  intros decompose VM m.
  assert (H : usable_returns (HJMModel.markets m) <> [])
    by (cbn; discriminate).
  refine (conj H _).
  destruct (calibrate_multifactor decompose m H)
    as (n & mat & _ & _ & G & _).
  destruct (G _ _ eq_refl) as (G1 & G2 & _).
  exact (conj G1 G2).
Defined.

(** ** The interpolant between and beyond the knots *)

Lemma sort_sorted_id (l : list (R * R)) :
  StronglySorted key_le l -> Interp1d.sort l = l.
Proof.
  induction 1 as [|q l Hs IH Hq]; simpl; [reflexivity|].
  rewrite IH. destruct l as [|q' l']; [reflexivity|].
  simpl. inversion Hq as [|? ? Hle _]; subst. unfold key_le in Hle.
  destruct (Rle_dec (fst q) (fst q')); [reflexivity | contradiction].
Qed.

Lemma combine_increasing (d lp : list R) :
  StronglySorted Rlt d -> StronglySorted key_le (combine d lp).
Proof.
  intros Hs. revert lp.
  induction Hs as [|u d Hs IH Hu]; intros lp; simpl; [constructor|].
  destruct lp as [|w lp]; constructor; [apply IH|].
  apply Forall_forall. intros [a b] Hab. apply in_combine_l in Hab.
  rewrite Forall_forall in Hu. unfold key_le. simpl.
  left. now apply Hu.
Qed.

Lemma map_snd_combine {A B : Type} (l : list A) (l' : list B) :
  length l = length l' -> map snd (combine l l') = l'.
Proof.
  revert l'. induction l as [|u l IH]; intros [|w l'] E; simpl in *;
    try discriminate; try reflexivity.
  f_equal. apply IH. lia.
Qed.

Lemma interp_increasing (d p : list R) :
  StronglySorted Rlt d -> length d = length p ->
  ForwardCurve._interp (built d p)
  = {| Interp1d.x := d; Interp1d.y := Np.log p |}.
Proof.
  intros Hs E. unfold built. cbn [ForwardCurve._interp].
  assert (El : length d = length (Np.log p))
    by (unfold Np.log; now rewrite length_map).
  rewrite sort_sorted_id by now apply combine_increasing.
  now rewrite map_fst_combine, map_snd_combine.
Qed.

Lemma searchsorted_between (xs : list R) (j : nat) (v : R) :
  StronglySorted Rlt xs -> (S j < length xs)%nat ->
  nth j xs 0 < v <= nth (S j) xs 0 ->
  Np.searchsorted xs v = S j.
Proof.
  intros Hs. revert j.
  induction Hs as [|u l Hs IH Hu]; intros j Hj Hv; simpl in Hj; [lia|].
  destruct j as [|j].
  - cbn [nth] in Hv. simpl.
    destruct (Rlt_dec u v) as [_|N]; [|lra].
    f_equal. destruct l as [|w l']; [reflexivity|].
    simpl. cbn [nth] in Hv. destruct (Rlt_dec w v); [lra | reflexivity].
  - change (nth (S j) (u :: l) 0) with (nth j l 0) in Hv.
    change (nth (S (S j)) (u :: l) 0) with (nth (S j) l 0) in Hv.
    simpl.
    rewrite Forall_forall in Hu.
    assert (u < nth j l 0) by (apply Hu, nth_In; lia).
    destruct (Rlt_dec u v) as [_|N]; [|lra].
    f_equal. apply IH; [lia | exact Hv].
Qed.

Lemma searchsorted_above (xs : list R) (v : R) :
  Forall (fun u => u < v) xs -> Np.searchsorted xs v = length xs.
Proof.
  induction 1 as [|u l Hu _ IH]; simpl; [reflexivity|].
  destruct (Rlt_dec u v); [now rewrite IH | contradiction].
Qed.

Lemma searchsorted_below (xs : list R) (v : R) :
  v <= nth 0 xs 0 -> (1 <= length xs)%nat -> Np.searchsorted xs v = 0%nat.
Proof.
  destruct xs as [|u l]; simpl; [lia|].
  intros Hv _. destruct (Rlt_dec u v); [lra | reflexivity].
Qed.

Lemma increasing_nth (xs : list R) (i j : nat) :
  StronglySorted Rlt xs -> (i < j)%nat -> (j < length xs)%nat ->
  nth i xs 0 < nth j xs 0.
Proof.
  intros Hs. revert i j.
  induction Hs as [|u l Hs IH Hu]; intros i j Hij Hj; simpl in Hj; [lia|].
  destruct j as [|j]; [lia|].
  destruct i as [|i]; cbn [nth].
  - rewrite Forall_forall in Hu. apply Hu, nth_In. lia.
  - apply IH; lia.
Qed.

Lemma below_all (xs : list R) (v : R) :
  StronglySorted Rlt xs -> nth (length xs - 1) xs 0 < v ->
  Forall (fun u => u < v) xs.
Proof.
  intros Hs Hv. apply Forall_forall. intros u Hu.
  destruct (In_nth xs u 0 Hu) as (i & Hi & <-).
  destruct (Nat.eq_dec i (length xs - 1)) as [->|Hne]; [exact Hv|].
  assert (nth i xs 0 < nth (length xs - 1) xs 0)
    by (apply increasing_nth; [exact Hs | lia | lia]).
  lra.
Qed.

Lemma call_on_segment (xs ys : list R) (v : R) (k : nat) :
  Np.clip (Z.of_nat (Np.searchsorted xs v)) 1 (Z.of_nat (length xs) - 1)
  = Z.of_nat (S k) ->
  Interp1d.call {| Interp1d.x := xs; Interp1d.y := ys |} v
  = (nth (S k) ys 0 - nth k ys 0) / (nth (S k) xs 0 - nth k xs 0)
    * (v - nth k xs 0) + nth k ys 0.
Proof.
  intros H. unfold Interp1d.call. cbn [Interp1d.x Interp1d.y].
  rewrite H.
  replace (Z.of_nat (S k) - 1)%Z with (Z.of_nat k) by lia.
  now rewrite !getitem_of_nat.
Qed.

Lemma ln_quotient (a b : R) : 0 < a -> 0 < b -> ln (a / b) = ln a - ln b.
Proof.
  intros Ha Hb. unfold Rdiv.
  rewrite ln_mult by (auto using Rinv_0_lt_compat).
  rewrite ln_Rinv by exact Hb. ring.
Qed.

Lemma segment_from_left (x0 x1 p0 p1 v : R) :
  x0 < x1 -> 0 < p0 -> 0 < p1 ->
  exp ((ln p1 - ln p0) / (x1 - x0) * (v - x0) + ln p0)
  = p0 * Rpower (p1 / p0) ((v - x0) / (x1 - x0)).
Proof.
  intros Hx H0 H1.
  unfold Rpower. rewrite ln_quotient by assumption.
  transitivity (exp (ln p0) * exp ((v - x0) / (x1 - x0) * (ln p1 - ln p0)));
    [|now rewrite exp_ln].
  rewrite <- exp_plus. f_equal. field. lra.
Qed.

Lemma segment_from_right (x0 x1 p0 p1 v : R) :
  x0 < x1 -> 0 < p0 -> 0 < p1 ->
  exp ((ln p1 - ln p0) / (x1 - x0) * (v - x0) + ln p0)
  = p1 * Rpower (p1 / p0) ((v - x1) / (x1 - x0)).
Proof.
  intros Hx H0 H1.
  unfold Rpower. rewrite ln_quotient by assumption.
  transitivity (exp (ln p1) * exp ((v - x1) / (x1 - x0) * (ln p1 - ln p0)));
    [|now rewrite exp_ln].
  rewrite <- exp_plus. f_equal. field. lra.
Qed.

Lemma nth_positive (p : list R) (i : nat) :
  Forall (fun u => 0 < u) p -> (i < length p)%nat -> 0 < nth i p 0.
Proof.
  intros Hp Hi. rewrite Forall_forall in Hp. apply Hp, nth_In, Hi.
Qed.

(** X13: on a ladder stored in increasing order with positive prices, the
    forward price at a maturity between two neighbouring knots is the
    geometric interpolation of their prices, and lies between them. *)
Theorem get_forward_between_knots (d p : list R) (c : ForwardCurve.t)
  (j : nat) (T : R) :
  ForwardCurve.__init__ d p = Ok c ->
  StronglySorted Rlt d ->
  Forall (fun u => 0 < u) p ->
  (S j < length d)%nat ->
  nth j d 0 < T <= nth (S j) d 0 ->
  let w := (T - nth j d 0) / (nth (S j) d 0 - nth j d 0) in
  ForwardCurve.get_forward c T
  = nth j p 0 * Rpower (nth (S j) p 0 / nth j p 0) w
  /\ Rmin (nth j p 0) (nth (S j) p 0) <= ForwardCurve.get_forward c T
     <= Rmax (nth j p 0) (nth (S j) p 0).
Proof.
  intros Hc Hs Hpos Hj HT w.
  destruct (init_inv d p c Hc) as (E & _ & ->).
  pose proof (increasing_step d j Hs Hj) as Hd.
  assert (H0 : 0 < nth j p 0) by (apply nth_positive; [assumption | lia]).
  assert (H1 : 0 < nth (S j) p 0) by (apply nth_positive; [assumption | lia]).
  assert (Hv : ForwardCurve.get_forward (built d p) T
               = exp ((ln (nth (S j) p 0) - ln (nth j p 0))
                      / (nth (S j) d 0 - nth j d 0) * (T - nth j d 0)
                      + ln (nth j p 0))).
  { unfold ForwardCurve.get_forward. rewrite interp_increasing by assumption.
    rewrite (call_on_segment d (Np.log p) T j).
    - now rewrite !log_nth by lia.
    - rewrite (searchsorted_between d j T Hs Hj HT). unfold Np.clip. lia. }
  split.
  - rewrite Hv. now apply segment_from_left.
  - rewrite Hv.
    set (D := nth (S j) d 0 - nth j d 0) in *.
    assert (HD : 0 < D) by (unfold D; lra).
    set (a := ln (nth j p 0)). set (b := ln (nth (S j) p 0)).
    assert (Hw : exists u, 0 <= u <= 1 /\ (b - a) / D * (T - nth j d 0) + a
                                          = (1 - u) * a + u * b).
    { exists ((T - nth j d 0) / D). split.
      - split.
        + apply Rmult_le_pos; [lra | left; now apply Rinv_0_lt_compat].
        + apply (Rmult_le_reg_r D); [exact HD|].
          unfold Rdiv. rewrite Rmult_assoc, Rinv_l by lra. unfold D. lra.
      - field. lra. }
    destruct Hw as (u & Hu & ->).
    assert (Ea : nth j p 0 = exp a) by (unfold a; now rewrite exp_ln).
    assert (Eb : nth (S j) p 0 = exp b) by (unfold b; now rewrite exp_ln).
    assert (Hmono : forall r s, r <= s -> exp r <= exp s).
    { intros r s [Hrs| ->]; [left; now apply exp_increasing | lra]. }
    destruct (Rle_dec (nth j p 0) (nth (S j) p 0)) as [L|L].
    + rewrite Rmin_left, Rmax_right by lra.
      assert (a <= b).
      { destruct L as [L|L]; [left; now apply ln_increasing | right].
        unfold a, b. now rewrite L. }
      rewrite Ea, Eb. split; apply Hmono; nra.
    + rewrite Rmin_right, Rmax_left by lra.
      assert (b < a) by (apply ln_increasing; lra).
      rewrite Ea, Eb. split; apply Hmono; nra.
Qed.

(** X13 on the three-point curve, halfway between the first two knots. *)
Lemma get_forward_between_knots_witness :
  ForwardCurve.__init__ [1; 2; 3] [2; 4; 8] = Ok short_curve
  /\ StronglySorted Rlt [1; 2; 3]
  /\ Forall (fun u => 0 < u) [2; 4; 8]
  /\ (1 < length [1; 2; 3]%R)%nat
  /\ 1 < 1.5 <= 2
  /\ ForwardCurve.get_forward short_curve 1.5
     = 2 * Rpower (4 / 2) ((1.5 - 1) / (2 - 1))
  /\ Rmin 2 4 <= ForwardCurve.get_forward short_curve 1.5 <= Rmax 2 4.
Proof.
  assert (H1 : ForwardCurve.__init__ [1; 2; 3] [2; 4; 8] = Ok short_curve)
    by reflexivity.
  assert (H2 : StronglySorted Rlt [1; 2; 3]) by (repeat constructor; lra).
  assert (H3 : Forall (fun u => 0 < u) [2; 4; 8]) by (repeat constructor; lra).
  assert (H4 : (1 < length [1; 2; 3]%R)%nat) by (simpl; lia).
  assert (H5 : 1 < 1.5 <= 2) by lra.
  exact (conj H1 (conj H2 (conj H3 (conj H4 (conj H5
           (get_forward_between_knots [1; 2; 3] [2; 4; 8] short_curve 0 1.5
              H1 H2 H3 H4 H5)))))).
Defined.

(** X14: on a ladder stored in increasing order with at least two points
    and positive prices, beyond the last maturity the forward price extends
    the last segment and at or before the first one the first segment,
    geometrically; it is not held flat: past the last knot it is above the
    last price when the last segment rises and below it when it falls. *)
Theorem get_forward_extrapolates (d p : list R) (c : ForwardCurve.t) (T : R) :
  ForwardCurve.__init__ d p = Ok c ->
  StronglySorted Rlt d ->
  Forall (fun u => 0 < u) p ->
  (2 <= length d)%nat ->
  let n := length d in
  let d_last := nth (n - 1) d 0 in
  let d_prev := nth (n - 2) d 0 in
  let p_last := nth (n - 1) p 0 in
  let p_prev := nth (n - 2) p 0 in
  (d_last < T ->
     ForwardCurve.get_forward c T
     = p_last * Rpower (p_last / p_prev) ((T - d_last) / (d_last - d_prev))
     /\ (p_prev < p_last -> p_last < ForwardCurve.get_forward c T)
     /\ (p_last < p_prev -> ForwardCurve.get_forward c T < p_last))
  /\ (T <= nth 0 d 0 ->
        ForwardCurve.get_forward c T
        = nth 0 p 0 * Rpower (nth 1 p 0 / nth 0 p 0)
                        ((T - nth 0 d 0) / (nth 1 d 0 - nth 0 d 0))).
Proof.
  intros Hc Hs Hpos Hn n d_last d_prev p_last p_prev.
  destruct (init_inv d p c Hc) as (E & _ & ->).
  unfold ForwardCurve.get_forward. rewrite interp_increasing by assumption.
  split.
  - intros HT.
    assert (Hseg : (S (n - 2) < length d)%nat) by (unfold n; lia).
    assert (En : S (n - 2) = (n - 1)%nat) by (unfold n; lia).
    pose proof (increasing_step d (n - 2) Hs Hseg) as Hd.
    rewrite En in Hd. fold d_prev d_last in Hd.
    assert (H0 : 0 < p_prev) by (apply nth_positive; [assumption | unfold n; lia]).
    assert (H1 : 0 < p_last) by (apply nth_positive; [assumption | unfold n; lia]).
    assert (Hv : Interp1d.call {| Interp1d.x := d; Interp1d.y := Np.log p |} T
                 = (ln p_last - ln p_prev) / (d_last - d_prev) * (T - d_prev)
                   + ln p_prev).
    { rewrite (call_on_segment d (Np.log p) T (n - 2)).
      - rewrite En. rewrite !log_nth by (unfold n; lia). reflexivity.
      - rewrite searchsorted_above by (apply below_all; assumption).
        unfold Np.clip, n. lia. }
    rewrite Hv.
    split; [now apply segment_from_right|].
    assert (Ep : p_last = exp (ln p_last)) by now rewrite exp_ln.
    split; intros Hp.
    + assert (ln p_prev < ln p_last) by now apply ln_increasing.
      rewrite Ep at 1. apply exp_increasing.
      assert (0 < (ln p_last - ln p_prev) / (d_last - d_prev))
        by (apply Rdiv_lt_0_compat; lra).
      replace ((ln p_last - ln p_prev) / (d_last - d_prev) * (T - d_prev)
               + ln p_prev)
        with (ln p_last
              + (ln p_last - ln p_prev) / (d_last - d_prev) * (T - d_last))
        by (field; lra).
      nra.
    + assert (ln p_last < ln p_prev) by now apply ln_increasing.
      rewrite Ep at 2. apply exp_increasing.
      assert (0 < (ln p_prev - ln p_last) / (d_last - d_prev))
        by (apply Rdiv_lt_0_compat; lra).
      replace ((ln p_last - ln p_prev) / (d_last - d_prev) * (T - d_prev)
               + ln p_prev)
        with (ln p_last
              - (ln p_prev - ln p_last) / (d_last - d_prev) * (T - d_last))
        by (field; lra).
      nra.
  - intros HT.
    assert (Hseg : (1 < length d)%nat) by lia.
    pose proof (increasing_step d 0 Hs Hseg) as Hd.
    rewrite (call_on_segment d (Np.log p) T 0).
    + rewrite !log_nth by lia.
      apply segment_from_left; try assumption;
        apply nth_positive; try assumption; lia.
    + rewrite searchsorted_below by (assumption || lia).
      unfold Np.clip. lia.
Qed.

(** X14 on the three-point curve, one unit past the last knot. *)
Lemma get_forward_extrapolates_witness :
  ForwardCurve.__init__ [1; 2; 3] [2; 4; 8] = Ok short_curve
  /\ StronglySorted Rlt [1; 2; 3]
  /\ Forall (fun u => 0 < u) [2; 4; 8]
  /\ (2 <= length [1; 2; 3]%R)%nat
  /\ 3 < 4
  /\ 4 < 8
  /\ ForwardCurve.get_forward short_curve 4
     = 8 * Rpower (8 / 4) ((4 - 3) / (3 - 2))
  /\ 8 < ForwardCurve.get_forward short_curve 4.
Proof.
  assert (H1 : ForwardCurve.__init__ [1; 2; 3] [2; 4; 8] = Ok short_curve)
    by reflexivity.
  assert (H2 : StronglySorted Rlt [1; 2; 3]) by (repeat constructor; lra).
  assert (H3 : Forall (fun u => 0 < u) [2; 4; 8]) by (repeat constructor; lra).
  assert (H4 : (2 <= length [1; 2; 3]%R)%nat) by (simpl; lia).
  assert (H5 : 3 < 4) by lra.
  assert (H6 : 4 < 8) by lra.
  destruct (get_forward_extrapolates [1; 2; 3] [2; 4; 8] short_curve 4
              H1 H2 H3 H4) as [G _].
  destruct (G H5) as (G1 & G2 & _).
  exact (conj H1 (conj H2 (conj H3 (conj H4 (conj H5 (conj H6
           (conj G1 (G2 H6)))))))).
Defined.

(** ** The interpolant does not depend on the stored order *)

Lemma sorted_strict (l : list (R * R)) :
  StronglySorted key_le l -> NoDup (map fst l) ->
  StronglySorted (fun a b => fst a < fst b) l.
Proof.
  induction 1 as [|q l Hs IH Hq]; intros Hnd; [constructor|].
  simpl in Hnd. inversion Hnd as [|? ? Hnin Hnd']; subst.
  constructor; [now apply IH|].
  rewrite Forall_forall in *. intros r Hr.
  destruct (Hq r Hr) as [Hlt|Heq]; [exact Hlt|].
  exfalso. apply Hnin. rewrite Heq. now apply in_map.
Qed.

Lemma strict_sorted_unique (l1 l2 : list (R * R)) :
  StronglySorted (fun a b => fst a < fst b) l1 ->
  StronglySorted (fun a b => fst a < fst b) l2 ->
  Permutation l1 l2 -> l1 = l2.
Proof.
  intros H1. revert l2.
  induction H1 as [|a l1 Hs1 IH Ha]; intros l2 H2 HP.
  - now apply Permutation_nil in HP.
  - destruct l2 as [|b l2].
    { apply Permutation_sym, Permutation_nil in HP. discriminate. }
    inversion H2 as [|? ? Hs2 Hb]; subst.
    assert (Eab : a = b).
    { assert (Hin1 : In a (b :: l2))
        by (apply (Permutation_in _ HP); now left).
      assert (Hin2 : In b (a :: l1))
        by (apply (Permutation_in _ (Permutation_sym HP)); now left).
      destruct Hin1 as [<-|Hin1]; [reflexivity|].
      destruct Hin2 as [->|Hin2]; [reflexivity|].
      rewrite Forall_forall in Ha, Hb.
      pose proof (Ha b Hin2). pose proof (Hb a Hin1). lra. }
    subst b. f_equal. apply IH; [exact Hs2|].
    now apply Permutation_cons_inv with (a := a).
Qed.

Lemma combine_log (d p : list R) :
  combine d (Np.log p) = map (fun q => (fst q, ln (snd q))) (combine d p).
Proof.
  unfold Np.log. revert p.
  induction d as [|u d IH]; intros [|w p]; simpl; try reflexivity.
  now rewrite IH.
Qed.

(** X15: the interpolant sorts its knots, so a curve built from the same
    points with distinct maturities stored in another order prices every
    maturity alike. *)
Theorem get_forward_order_independent (d p d' p' : list R)
  (c c' : ForwardCurve.t) :
  ForwardCurve.__init__ d p = Ok c ->
  ForwardCurve.__init__ d' p' = Ok c' ->
  Permutation (combine d p) (combine d' p') ->
  NoDup d ->
  forall T, ForwardCurve.get_forward c T = ForwardCurve.get_forward c' T.
Proof.
  intros Hc Hc' HP Hnd T.
  destruct (init_inv d p c Hc) as (E & _ & ->).
  destruct (init_inv d' p' c' Hc') as (E' & _ & ->).
  assert (HPl : Permutation (combine d (Np.log p)) (combine d' (Np.log p'))).
  { rewrite !combine_log. now apply Permutation_map. }
  assert (Hd : Permutation d d').
  { rewrite <- (map_fst_combine d p E), <- (map_fst_combine d' p' E').
    now apply Permutation_map. }
  assert (Hkeys : forall dd pp, length dd = length pp -> NoDup dd ->
            StronglySorted (fun a b => fst a < fst b)
              (Interp1d.sort (combine dd (Np.log pp)))).
  { intros dd pp Edd Hdd. apply sorted_strict; [apply sort_sorted|].
    apply (Permutation_NoDup (l := dd)); [|exact Hdd].
    rewrite <- (map_fst_combine dd (Np.log pp)) at 1
      by (unfold Np.log; now rewrite length_map).
    apply Permutation_map, Permutation_sym, sort_perm. }
  assert (Esort : Interp1d.sort (combine d (Np.log p))
                  = Interp1d.sort (combine d' (Np.log p'))).
  { apply strict_sorted_unique.
    - now apply Hkeys.
    - apply Hkeys; [exact E'|]. now apply (Permutation_NoDup Hd).
    - eapply perm_trans; [apply sort_perm|].
      eapply perm_trans; [exact HPl|]. apply Permutation_sym, sort_perm. }
  unfold ForwardCurve.get_forward, built. cbn [ForwardCurve._interp].
  now rewrite Esort.
Qed.

(** X15 on the three-point curve and the same points stored in decreasing
    order. *)
Lemma get_forward_order_independent_witness :
  ForwardCurve.__init__ [1; 2; 3] [2; 4; 8] = Ok short_curve
  /\ ForwardCurve.__init__ [3; 2; 1] [8; 4; 2] = Ok (built [3; 2; 1] [8; 4; 2])
  /\ Permutation (combine [1; 2; 3] [2; 4; 8]) (combine [3; 2; 1] [8; 4; 2])
  /\ NoDup [1; 2; 3]
  /\ forall T, ForwardCurve.get_forward short_curve T
               = ForwardCurve.get_forward (built [3; 2; 1] [8; 4; 2]) T.
Proof.
  assert (H1 : ForwardCurve.__init__ [1; 2; 3] [2; 4; 8] = Ok short_curve)
    by reflexivity.
  assert (H2 : ForwardCurve.__init__ [3; 2; 1] [8; 4; 2]
               = Ok (built [3; 2; 1] [8; 4; 2])) by reflexivity.
  assert (H3 : Permutation (combine [1; 2; 3] [2; 4; 8])
                 (combine [3; 2; 1] [8; 4; 2])).
  { simpl. apply (Permutation_rev [(1, 2); (2, 4); (3, 8)]). }
  assert (H4 : NoDup [1; 2; 3]).
  { apply increasing_nodup. repeat constructor; lra. }
  exact (conj H1 (conj H2 (conj H3 (conj H4
           (get_forward_order_independent _ _ _ _ _ _ H1 H2 H3 H4))))).
Defined.

(** ** Slicing: full range, nested ranges, knots of the slice *)

Lemma captured_all (start end_ : R) (d p : list R) :
  Forall (fun u => start <= u <= end_) d ->
  captured start end_ d p = combine d p.
Proof.
  intros Hall. unfold captured.
  apply forallb_filter_id. apply forallb_forall. intros [u w] Hin.
  apply in_combine_l in Hin. rewrite Forall_forall in Hall.
  apply in_range_spec. now apply Hall.
Qed.

(** X16: a range that holds every stored maturity makes [slice] return a
    curve equal to the source. *)
Theorem slice_full_range (d p : list R) (c : ForwardCurve.t) (start end_ : R) :
  ForwardCurve.__init__ d p = Ok c ->
  Forall (fun u => start <= u <= end_) (ForwardCurve.dates c) ->
  ForwardCurve.slice start end_ c = (c, Ok c).
Proof.
  intros Hc Hall.
  rewrite (slice_run d p c start end_ Hc).
  destruct (init_inv d p c Hc) as (E & _ & Hb).
  rewrite Hb in Hall. cbn [built ForwardCurve.dates] in Hall.
  rewrite captured_all by exact Hall.
  now rewrite map_fst_combine, map_snd_combine, Hc.
Qed.

(** X16 on the three-point curve. *)
Lemma slice_full_range_witness :
  ForwardCurve.__init__ [1; 2; 3] [2; 4; 8] = Ok short_curve
  /\ Forall (fun u => 0 <= u <= 10) (ForwardCurve.dates short_curve)
  /\ ForwardCurve.slice 0 10 short_curve = (short_curve, Ok short_curve).
Proof.
  assert (H1 : ForwardCurve.__init__ [1; 2; 3] [2; 4; 8] = Ok short_curve)
    by reflexivity.
  assert (H2 : Forall (fun u => 0 <= u <= 10) (ForwardCurve.dates short_curve))
    by (repeat constructor; lra).
  exact (conj H1 (conj H2 (slice_full_range _ _ short_curve 0 10 H1 H2))).
Defined.

Lemma in_range_inter (s1 e1 s2 e2 x : R) :
  in_range (Rmax s1 s2) (Rmin e1 e2) x
  = in_range s1 e1 x && in_range s2 e2 x.
Proof.
  apply Bool.eq_iff_eq_true.
  rewrite andb_true_iff, !in_range_spec.
  unfold Rmax, Rmin.
  destruct (Rle_dec s1 s2), (Rle_dec e1 e2); lra.
Qed.

Lemma filter_twice {A : Type} (f g : A -> bool) (l : list A) :
  filter f (filter g l) = filter (fun x => g x && f x) l.
Proof.
  induction l as [|u l IH]; simpl; [reflexivity|].
  destruct (g u); simpl; [destruct (f u)|]; now rewrite IH.
Qed.

Lemma captured_of_captured (s1 e1 s2 e2 : R) (d p : list R) :
  captured s2 e2 (map fst (captured s1 e1 d p)) (map snd (captured s1 e1 d p))
  = captured (Rmax s1 s2) (Rmin e1 e2) d p.
Proof.
  unfold captured at 1. rewrite combine_fst_snd.
  unfold captured. rewrite filter_twice.
  apply filter_ext. intros q. now rewrite in_range_inter.
Qed.

(** X17: slicing a slice is slicing by the intersection of the two ranges,
    in what is returned and in when it raises. *)
Theorem slice_of_slice (d p : list R) (c : ForwardCurve.t)
  (s1 e1 s2 e2 : R) :
  ForwardCurve.__init__ d p = Ok c ->
  (c1 <-? snd (ForwardCurve.slice s1 e1 c) ;;
   snd (ForwardCurve.slice s2 e2 c1))
  = snd (ForwardCurve.slice (Rmax s1 s2) (Rmin e1 e2) c).
Proof.
  intros Hc.
  rewrite (slice_run d p c (Rmax s1 s2) (Rmin e1 e2) Hc). cbn [snd].
  rewrite <- captured_of_captured.
  rewrite (slice_run d p c s1 e1 Hc). cbn [snd].
  destruct (ForwardCurve.__init__ (map fst (captured s1 e1 d p))
              (map snd (captured s1 e1 d p))) as [c1|e] eqn:H1; cbn [rbind].
  - now rewrite (slice_run _ _ c1 s2 e2 H1).
  - destruct (captured s1 e1 d p) as [|q K] eqn:HK.
    + cbn. cbn in H1. congruence.
    + exfalso.
      rewrite init_ok in H1; [discriminate | now rewrite !length_map|].
      unfold Interp1d.minval. simpl. lia.
Qed.

(** X17 on the three-point curve. *)
Lemma slice_of_slice_witness :
  ForwardCurve.__init__ [1; 2; 3] [2; 4; 8] = Ok short_curve
  /\ (c1 <-? snd (ForwardCurve.slice 0 2 short_curve) ;;
      snd (ForwardCurve.slice 2 5 c1))
     = snd (ForwardCurve.slice (Rmax 0 2) (Rmin 2 5) short_curve).
Proof.
  assert (H1 : ForwardCurve.__init__ [1; 2; 3] [2; 4; 8] = Ok short_curve)
    by reflexivity.
  exact (conj H1 (slice_of_slice _ _ short_curve 0 2 2 5 H1)).
Defined.

(** X18: a slice that keeps at least two points of a curve with distinct
    maturities and positive prices prices every kept maturity at its stored
    price. *)
Theorem slice_exact_at_kept_knots (d p : list R) (c c' : ForwardCurve.t)
  (start end_ : R) :
  ForwardCurve.__init__ d p = Ok c ->
  NoDup d ->
  Forall (fun u => 0 < u) p ->
  snd (ForwardCurve.slice start end_ c) = Ok c' ->
  (2 <= length (ForwardCurve.dates c'))%nat ->
  forall x y, In (x, y) (combine d p) -> start <= x <= end_ ->
    ForwardCurve.get_forward c' x = y.
Proof.
  intros Hc Hnd Hpos Hs Hlen x y Hin Hx.
  destruct (init_inv d p c Hc) as (E & _ & _).
  rewrite (slice_run d p c start end_ Hc) in Hs. cbn [snd] in Hs.
  set (K := captured start end_ d p) in *.
  destruct (init_inv _ _ c' Hs) as (_ & _ & Hb).
  assert (HinK : In (x, y) K).
  { apply filter_In. split; [exact Hin | now apply in_range_spec]. }
  destruct (In_nth K (x, y) (0, 0) HinK) as (i & Hi & Hnth).
  assert (Hxi : nth i (map fst K) 0 = x).
  { change 0 with (fst (0, 0)) at 1. now rewrite map_nth, Hnth. }
  assert (Hyi : nth i (map snd K) 0 = y).
  { change 0 with (snd (0, 0)) at 1. now rewrite map_nth, Hnth. }
  rewrite <- Hxi, <- Hyi.
  rewrite Hb in Hlen. cbn [built ForwardCurve.dates] in Hlen.
  apply (get_forward_at_knot _ _ c' i Hs).
  - unfold K. rewrite captured_dates by exact E. now apply NoDup_filter.
  - exact Hlen.
  - apply Forall_forall. intros w Hw.
    apply in_map_iff in Hw. destruct Hw as ([a b] & <- & Hab).
    apply filter_In in Hab. destruct Hab as [Hab _].
    apply in_combine_r in Hab. rewrite Forall_forall in Hpos. now apply Hpos.
  - now rewrite length_map.
Qed.

(** X18 on [slice(2, 3)] of the three-point curve. *)
Lemma slice_exact_at_kept_knots_witness :
  ForwardCurve.__init__ [1; 2; 3] [2; 4; 8] = Ok short_curve
  /\ NoDup [1; 2; 3]
  /\ Forall (fun u => 0 < u) [2; 4; 8]
  /\ snd (ForwardCurve.slice 2 3 short_curve) = Ok (built [2; 3] [4; 8])
  /\ (2 <= length (ForwardCurve.dates (built [2; 3]%R [4; 8]%R)))%nat
  /\ In (3, 8) (combine [1; 2; 3] [2; 4; 8])
  /\ 2 <= 3 <= 3
  /\ ForwardCurve.get_forward (built [2; 3] [4; 8]) 3 = 8.
Proof.
  assert (H1 : ForwardCurve.__init__ [1; 2; 3] [2; 4; 8] = Ok short_curve)
    by reflexivity.
  assert (H2 : NoDup [1; 2; 3])
    by (apply increasing_nodup; repeat constructor; lra).
  assert (H3 : Forall (fun u => 0 < u) [2; 4; 8]) by (repeat constructor; lra).
  assert (Hk : captured 2 3 [1; 2; 3] [2; 4; 8] = [(2, 4); (3, 8)]).
  { unfold captured, in_range, Rleb. cbn [combine filter fst].
    destruct (Rle_dec 2 1); [lra|]. cbn [andb].
    destruct (Rle_dec 2 2); [|lra]. destruct (Rle_dec 2 3); [|lra].
    destruct (Rle_dec 3 3); [|lra]. reflexivity. }
  assert (H4 : snd (ForwardCurve.slice 2 3 short_curve)
               = Ok (built [2; 3] [4; 8])).
  { rewrite (slice_run _ _ short_curve 2 3 H1). cbn [snd]. now rewrite Hk. }
  assert (H5 : (2 <= length (ForwardCurve.dates (built [2; 3]%R [4; 8]%R)))%nat)
    by (simpl; lia).
  assert (H6 : In (3, 8) (combine [1; 2; 3] [2; 4; 8]))
    by (simpl; auto).
  assert (H7 : 2 <= 3 <= 3) by lra.
  exact (conj H1 (conj H2 (conj H3 (conj H4 (conj H5 (conj H6 (conj H7
           (slice_exact_at_kept_knots _ _ short_curve _ 2 3 H1 H2 H3 H4 H5
              3 8 H6 H7)))))))).
Defined.

(** ** Log-returns *)

Lemma sum_diff (a : list R) : Np.sum (Np.diff a) = last a 0 - nth 0 a 0.
Proof.
  unfold Np.sum.
  induction a as [|u [|w a'] IH].
  - simpl. ring.
  - simpl. ring.
  - change (Np.diff (u :: w :: a')) with ((w - u) :: Np.diff (w :: a')).
    cbn [fold_right]. rewrite IH.
    change (last (u :: w :: a') 0) with (last (w :: a') 0).
    cbn [nth]. ring.
Qed.

Lemma diff_short (a : list R) : (length a < 2)%nat -> Np.diff a = [].
Proof.
  destruct a as [|u [|w a']]; simpl; intros; try reflexivity; lia.
Qed.

(** X19: the log-returns of a curve with positive prices add up to the log
    of the ratio of its last to its first price; a curve of fewer than two
    points has no log-return. *)
Theorem log_returns_telescope (c : ForwardCurve.t) :
  let p := ForwardCurve.prices c in
  ((length p < 2)%nat -> ForwardCurve.log_returns c = [])
  /\ ((1 <= length p)%nat -> Forall (fun u => 0 < u) p ->
        Np.sum (ForwardCurve.log_returns c) = ln (last p 0 / nth 0 p 0)
        /\ last p 0 = nth 0 p 0 * exp (Np.sum (ForwardCurve.log_returns c))).
Proof.
  intros p. unfold ForwardCurve.log_returns. fold p. split.
  - intros Hlen. apply diff_short. unfold Np.log. now rewrite length_map.
  - intros Hlen Hpos.
    assert (Hl : last p 0 = nth (length p - 1) p 0) by apply last_as_nth.
    assert (H0 : 0 < nth 0 p 0) by (apply nth_positive; [assumption | lia]).
    assert (H1 : 0 < last p 0)
      by (rewrite Hl; apply nth_positive; [assumption | lia]).
    assert (Hs : Np.sum (Np.diff (Np.log p)) = ln (last p 0 / nth 0 p 0)).
    { rewrite sum_diff, last_as_nth.
      unfold Np.log at 1. rewrite length_map.
      rewrite !log_nth by lia. rewrite <- Hl.
      now rewrite ln_quotient. }
    split; [exact Hs|].
    rewrite Hs, exp_ln by (apply Rdiv_lt_0_compat; assumption).
    field. lra.
Qed.

Lemma diff_shift (a : R) (l : list R) :
  Np.diff (map (fun u => a + u) l) = Np.diff l.
Proof.
  induction l as [|u [|w l'] IH]; try reflexivity.
  change (map (fun u => a + u) (u :: w :: l'))
    with ((a + u) :: map (fun u => a + u) (w :: l')).
  change (Np.diff (u :: w :: l')) with ((w - u) :: Np.diff (w :: l')).
  rewrite <- IH. cbn [map Np.diff]. f_equal. ring.
Qed.

(** X20: log-returns do not depend on the unit of the prices: multiplying
    every positive price by the same positive factor leaves them as they
    are. *)
Theorem log_returns_scale_free (c c' : ForwardCurve.t) (k : R) :
  0 < k ->
  Forall (fun u => 0 < u) (ForwardCurve.prices c) ->
  ForwardCurve.prices c' = map (fun u => k * u) (ForwardCurve.prices c) ->
  ForwardCurve.log_returns c' = ForwardCurve.log_returns c.
Proof.
  intros Hk Hpos Hp'. unfold ForwardCurve.log_returns. rewrite Hp'.
  rewrite <- (diff_shift (ln k) (Np.log (ForwardCurve.prices c))).
  f_equal. unfold Np.log. rewrite !map_map.
  apply map_ext_in. intros u Hu.
  rewrite Forall_forall in Hpos. apply ln_mult; [exact Hk | now apply Hpos].
Qed.

(** X20 on the three-point curve and the same prices a hundredfold. *)
Lemma log_returns_scale_free_witness :
  0 < 100
  /\ Forall (fun u => 0 < u) (ForwardCurve.prices short_curve)
  /\ ForwardCurve.prices (built [1; 2; 3] [100 * 2; 100 * 4; 100 * 8])
     = map (fun u => 100 * u) (ForwardCurve.prices short_curve)
  /\ ForwardCurve.log_returns (built [1; 2; 3] [100 * 2; 100 * 4; 100 * 8])
     = ForwardCurve.log_returns short_curve.
Proof.
  assert (H1 : 0 < 100) by lra.
  assert (H2 : Forall (fun u => 0 < u) (ForwardCurve.prices short_curve))
    by (repeat constructor; lra).
  assert (H3 : ForwardCurve.prices
                 (built [1; 2; 3] [100 * 2; 100 * 4; 100 * 8])
               = map (fun u => 100 * u) (ForwardCurve.prices short_curve))
    by reflexivity.
  exact (conj H1 (conj H2 (conj H3
           (log_returns_scale_free short_curve _ 100 H1 H2 H3)))).
Defined.

(** X19 on the three-point curve. *)
Lemma log_returns_telescope_witness :
  (1 <= length (ForwardCurve.prices short_curve))%nat
  /\ Forall (fun u => 0 < u) (ForwardCurve.prices short_curve)
  /\ Np.sum (ForwardCurve.log_returns short_curve) = ln (8 / 2).
Proof.
  assert (H1 : (1 <= length (ForwardCurve.prices short_curve))%nat)
    by (simpl; lia).
  assert (H2 : Forall (fun u => 0 < u) (ForwardCurve.prices short_curve))
    by (repeat constructor; lra).
  destruct (log_returns_telescope short_curve) as [_ G].
  exact (conj H1 (conj H2 (proj1 (G H1 H2)))).
Defined.

(** ** Calibration: equal lengths, short curves *)

Lemma trailing_all (r : list R) : trailing (length r) r = r.
Proof. unfold trailing. now rewrite Nat.sub_diag. Qed.

Section CalibrationShapes.

Context {V : Type} {VM : VolatilityModel.Model V}.

(** X21: when the usable curves all have the same number of points nothing
    is cut: the columns of the matrix handed to the volatility model are
    the complete return sequences, in the order of the curves. *)
Theorem calibrate_equal_lengths (m : HJMModel.t V) (k : nat) :
  usable_returns (HJMModel.markets m) <> [] ->
  Forall (fun r => length r = k) (usable_returns (HJMModel.markets m)) ->
  exists mat : list (list R),
    length mat = k
    /\ (forall j, (j < length (usable_returns (HJMModel.markets m)))%nat ->
          column j mat = nth j (usable_returns (HJMModel.markets m)) [])
    /\ HJMModel.calibrate m
       = let vr := VolatilityModel.calibrate [VolatilityModel.Arr2 mat]
                     (HJMModel.vol_model m) in
         ({| HJMModel.vol_model := fst vr;
             HJMModel.markets := HJMModel.markets m |},
          _ <-? snd vr ;;
          n <-? VolatilityModel.n_factors (fst vr) ;;
          ev <-? VolatilityModel.explained_variance_ (fst vr) ;;
          Ok (n, ev)).
Proof.
  set (rs := usable_returns (HJMModel.markets m)). intros Hrs Hall.
  destruct (calibrate_reaches_model m Hrs) as (n & mat & Hmin & _ & Hmat & Hcal).
  fold rs in Hmin, Hmat.
  assert (Hn : n = k).
  { assert (Hlens : map (@length R) rs <> [])
      by (destruct rs; [congruence | discriminate]).
    destruct (py_min_spec _ Hlens) as (n' & Hmin' & _ & Hin).
    rewrite Hmin in Hmin'. injection Hmin' as <-.
    apply in_map_iff in Hin. destruct Hin as (r & <- & Hr).
    rewrite Forall_forall in Hall. now apply Hall. }
  subst n.
  assert (Hcut : map (trailing k) rs = rs).
  { rewrite <- (map_id rs) at 2. apply map_ext_in. intros r Hr.
    rewrite Forall_forall in Hall. rewrite <- (Hall r Hr). apply trailing_all. }
  rewrite Hcut in Hmat.
  destruct (column_stack_columns rs k Hrs Hall) as (mat' & Hmat' & Hl & _ & Hc).
  rewrite Hmat in Hmat'. injection Hmat' as <-.
  exists mat. split; [exact Hl|]. split; [exact Hc | exact Hcal].
Qed.

Lemma calibrate_depends (m m' : HJMModel.t V) :
  HJMModel.vol_model m = HJMModel.vol_model m' ->
  usable_returns (HJMModel.markets m) = usable_returns (HJMModel.markets m') ->
  snd (HJMModel.calibrate m) = snd (HJMModel.calibrate m')
  /\ HJMModel.vol_model (fst (HJMModel.calibrate m))
     = HJMModel.vol_model (fst (HJMModel.calibrate m')).
Proof.
  intros Hv Hr. rewrite !calibrate_run, !collect_returns_usable, <- Hr, <- Hv.
  destruct (HJMModel.py_min _) as [n|e]; [|now split].
  destruct (Np.column_stack _) as [mat|e]; [|now split].
  split; reflexivity.
Qed.

Lemma usable_setitem (d : PyDict.dict Market.t) (k : string)
  (a b : Market.t) :
  usable_returns [(k, a)] = usable_returns [(k, b)] ->
  usable_returns (PyDict.setitem d k a) = usable_returns (PyDict.setitem d k b).
Proof.
  unfold usable_returns, PyDict.values. cbn [map flat_map snd].
  rewrite !app_nil_r. intros H.
  induction d as [|[k' v'] d IH]; cbn [PyDict.setitem].
  - cbn [map flat_map snd]. now rewrite H.
  - destruct (String.eqb k' k); cbn [map flat_map snd].
    + now rewrite H.
    + now rewrite IH.
Qed.

(** X22: a curve of fewer than two points, added under a new name to a
    market before it is registered, changes nothing of what [calibrate]
    collects, of its outcome and of the volatility model it leaves. *)
Theorem calibrate_ignores_short_curve (m0 : HJMModel.t V) (mk : Market.t)
  (cn : string) (c : ForwardCurve.t) :
  (length (ForwardCurve.prices c) < 2)%nat ->
  Market.get_curve mk cn = None ->
  let mk' := fst (Market.add_forward_curve cn c mk) in
  let m := fst (HJMModel.add_market mk m0) in
  let m' := fst (HJMModel.add_market mk' m0) in
  usable_returns (HJMModel.markets m') = usable_returns (HJMModel.markets m)
  /\ snd (HJMModel.calibrate m') = snd (HJMModel.calibrate m)
  /\ HJMModel.vol_model (fst (HJMModel.calibrate m'))
     = HJMModel.vol_model (fst (HJMModel.calibrate m)).
Proof.
  intros Hlen Hnone mk' m m'.
  assert (Hu : usable_returns (HJMModel.markets m')
               = usable_returns (HJMModel.markets m)).
  { cbn. apply usable_setitem.
    unfold usable_returns, PyDict.values. cbn [map flat_map snd Market.curves].
    rewrite !app_nil_r.
    unfold Market.get_curve in Hnone.
    rewrite (setitem_absent _ _ _ Hnone).
    rewrite map_app, filter_app, map_app. cbn [map snd filter].
    destruct (Nat.leb_spec 2 (length (ForwardCurve.prices c))); [lia|].
    now rewrite app_nil_r. }
  split; [exact Hu|].
  apply calibrate_depends; [reflexivity | exact Hu].
Qed.

End CalibrationShapes.

(** X21 on a market of two three-point curves. *)
Lemma calibrate_equal_lengths_witness :
  let mk := fst (Market.add_forward_curve "b" short_curve
                   (fst (Market.add_forward_curve "a" short_curve
                           (Market.__init__ "M" None "gas")))) in
  let m := fst (HJMModel.add_market mk
                  (HJMModel.__init__ VolatilityModel.Abstract)) in
  usable_returns (HJMModel.markets m) <> []
  /\ Forall (fun r => length r = 2%nat) (usable_returns (HJMModel.markets m))
  /\ exists mat : list (list R),
       length mat = 2%nat
       /\ column 0 mat = ForwardCurve.log_returns short_curve
       /\ column 1 mat = ForwardCurve.log_returns short_curve.
Proof.
  intros mk m.
  assert (H1 : usable_returns (HJMModel.markets m) <> [])
    by (cbn; discriminate).
  assert (H2 : Forall (fun r => length r = 2%nat)
                 (usable_returns (HJMModel.markets m)))
    by (cbn; repeat constructor).
  refine (conj H1 (conj H2 _)).
  destruct (calibrate_equal_lengths m 2 H1 H2) as (mat & G1 & G2 & _).
  exists mat.
  refine (conj G1 (conj (G2 0%nat _) (G2 1%nat _))); cbn; lia.
Defined.

(** X22 on the market "Gas" and a one-point curve. *)
Lemma calibrate_ignores_short_curve_witness :
  let c := built [1] [2] in
  let m := fst (HJMModel.add_market gas_market
                  (HJMModel.__init__ VolatilityModel.Abstract)) in
  let m' := fst (HJMModel.add_market
                   (fst (Market.add_forward_curve "stub" c gas_market))
                   (HJMModel.__init__ VolatilityModel.Abstract)) in
  (length (ForwardCurve.prices c) < 2)%nat
  /\ Market.get_curve gas_market "stub" = None
  /\ usable_returns (HJMModel.markets m') = usable_returns (HJMModel.markets m)
  /\ snd (HJMModel.calibrate m') = snd (HJMModel.calibrate m).
Proof.
  intros c m m'.
  assert (H1 : (length (ForwardCurve.prices c) < 2)%nat) by (simpl; lia).
  assert (H2 : Market.get_curve gas_market "stub" = None) by reflexivity.
  destruct (calibrate_ignores_short_curve
              (HJMModel.__init__ VolatilityModel.Abstract)
              gas_market "stub" c H1 H2) as (G1 & G2 & _).
  exact (conj H1 (conj H2 (conj G1 G2))).
Defined.

(** ** Calibration of the exponential model *)

(** X23: the exponential model fits the very form [sigma] evaluates: when
    the call of the least-squares routine that [calibrate] makes answers
    parameters at which that form reproduces every observation, then
    [calibrate] succeeds, stores these parameters, and [sigma(0, tau)] at
    every sampled time to maturity is the observed volatility.  When the
    routine raises, or [calibrate] is not given two arrays ([TypeError]),
    the parameters are left as they were. *)
Theorem exponential_calibrate_fits
  (curve_fit : (R -> R -> R -> R) -> VolatilityModel.ndarray ->
               VolatilityModel.ndarray -> R * R -> result (R * R))
  (self : ExponentialVolatilityModel.t) (taus vols : list R) :
  let VM := ExponentialVolatilityModel.Model curve_fit in
  let out := VolatilityModel.calibrate
               [VolatilityModel.Arr1 taus; VolatilityModel.Arr1 vols] self in
  (forall g k,
     curve_fit (fun tau gamma k => gamma * exp (- k * tau))
       (VolatilityModel.Arr1 taus) (VolatilityModel.Arr1 vols)
       (ExponentialVolatilityModel.gamma self,
        ExponentialVolatilityModel.k self)
     = Ok (g, k) ->
     Forall2 (fun tau v => g * exp (- k * tau) = v) taus vols ->
     snd out = Ok tt
     /\ ExponentialVolatilityModel.gamma (fst out) = g
     /\ ExponentialVolatilityModel.k (fst out) = k
     /\ Forall2 (fun tau v =>
                   ExponentialVolatilityModel.sigma (fst out) 0 tau = v)
          taus vols)
  /\ (forall e, snd out = Raise e -> fst out = self)
  /\ (forall args, length args <> 2%nat ->
        VolatilityModel.calibrate args self = (self, Raise TypeError)).
Proof.
  intros VM out.
  unfold out.
  cbn [VolatilityModel.calibrate VM ExponentialVolatilityModel.Model].
  unfold ExponentialVolatilityModel.calibrate.
  split; [|split].
  - intros g k Hfit Hexact. rewrite Hfit.
    cbn [fst snd ExponentialVolatilityModel.gamma ExponentialVolatilityModel.k].
    repeat split.
    eapply Forall2_impl; [|exact Hexact].
    intros tau v <-. unfold ExponentialVolatilityModel.sigma.
    cbn [ExponentialVolatilityModel.gamma ExponentialVolatilityModel.k].
    do 2 f_equal. ring.
  - intros e. destruct (curve_fit _ _ _ _) as [[g k]|e'];
      cbn [fst snd]; [discriminate | reflexivity].
  - intros [|a [|b [|c args]]] Hlen; try reflexivity. simpl in Hlen. lia.
Qed.

(** X23 on a flat sample and a model that already fits it. *)
Lemma exponential_calibrate_fits_witness :
  let VM := ExponentialVolatilityModel.Model seed_or_raise in
  let self := ExponentialVolatilityModel.__init__ 0.2 0 in
  let out := VolatilityModel.calibrate
               [VolatilityModel.Arr1 [1; 2]; VolatilityModel.Arr1 [0.2; 0.2]]
               self in
  seed_or_raise (fun tau gamma k => gamma * exp (- k * tau))
    (VolatilityModel.Arr1 [1; 2]) (VolatilityModel.Arr1 [0.2; 0.2])
    (0.2, 0) = Ok (0.2, 0)
  /\ Forall2 (fun tau v => 0.2 * exp (- 0 * tau) = v) [1; 2] [0.2; 0.2]
  /\ snd out = Ok tt
  /\ Forall2 (fun tau v =>
                ExponentialVolatilityModel.sigma (fst out) 0 tau = v)
       [1; 2] [0.2; 0.2].
Proof.
  intros VM self out.
  assert (E : forall tau, 0.2 * exp (- 0 * tau) = 0.2).
  { intros tau. replace (- 0 * tau) with 0 by ring. rewrite exp_0. ring. }
  assert (H1 : seed_or_raise (fun tau gamma k => gamma * exp (- k * tau))
                 (VolatilityModel.Arr1 [1; 2])
                 (VolatilityModel.Arr1 [0.2; 0.2]) (0.2, 0) = Ok (0.2, 0)).
  { unfold seed_or_raise. cbn [fst snd].
    destruct (Req_dec_T (0.2 * exp (- 0 * 1)) 0.2) as [_|N];
      [|exfalso; apply N, E].
    destruct (Req_dec_T (0.2 * exp (- 0 * 2)) 0.2) as [_|N];
      [reflexivity | exfalso; apply N, E]. }
  assert (H2 : Forall2 (fun tau v => 0.2 * exp (- 0 * tau) = v)
                 [1; 2] [0.2; 0.2])
    by (repeat constructor; apply E).
  refine (conj H1 (conj H2 _)).
  destruct (exponential_calibrate_fits seed_or_raise self [1; 2] [0.2; 0.2])
    as (G & _).
  destruct (G 0.2 0 H1 H2) as (G1 & _ & _ & G4).
  exact (conj G1 G4).
Defined.

(** ** Queries and calibration together *)

Lemma terminal_markets {V V' : Type} (m : HJMModel.t V) (m' : HJMModel.t V')
  (mn cn : string) :
  HJMModel.markets m' = HJMModel.markets m ->
  terminal m' mn cn = terminal m mn cn.
Proof. unfold terminal. now intros ->. Qed.

(** X24: the two queries never change the model, whatever their outcome;
    [price_forward] does not consult the volatility model, so two models
    holding the same markets price alike; [forward_dynamics] on registered
    names propagates the exception [sigma] raises. *)
Theorem queries_frame {V : Type} {VM : VolatilityModel.Model V}
  (m : HJMModel.t V) (mn cn : string) (t0 t1 t : R) :
  fst (HJMModel.forward_dynamics mn cn t0 t1 m) = m
  /\ fst (HJMModel.price_forward mn cn t m) = m
  /\ (forall (V' : Type) (VM' : VolatilityModel.Model V') (m' : HJMModel.t V'),
        HJMModel.markets m' = HJMModel.markets m ->
        snd (HJMModel.price_forward mn cn t m')
        = snd (HJMModel.price_forward mn cn t m))
  /\ (forall c T e,
        terminal m mn cn = Ok (c, T) ->
        VolatilityModel.sigma (HJMModel.vol_model m) t0 T = Raise e ->
        snd (HJMModel.forward_dynamics mn cn t0 t1 m) = Raise e).
Proof.
  split; [|split; [|split]].
  - now rewrite forward_dynamics_run.
  - now rewrite price_forward_run.
  - intros V' VM' m' Hm. rewrite !price_forward_run. cbn [snd].
    now rewrite (terminal_markets m m' mn cn Hm).
  - intros c T e Ht Hs. rewrite forward_dynamics_run, Ht.
    cbn [snd rbind fst]. now rewrite Hs.
Qed.

Lemma calibrate_result_state {V : Type} {VM : VolatilityModel.Model V}
  (m : HJMModel.t V) :
  fst (HJMModel.calibrate m) = m
  \/ exists mat,
       fst (HJMModel.calibrate m)
       = {| HJMModel.vol_model :=
              fst (VolatilityModel.calibrate [VolatilityModel.Arr2 mat]
                     (HJMModel.vol_model m));
            HJMModel.markets := HJMModel.markets m |}.
Proof.
  rewrite calibrate_run.
  destruct (HJMModel.py_min _) as [n|e]; [|now left].
  destruct (Np.column_stack _) as [mat|e]; [|now left].
  right. now exists mat.
Qed.

(** X25: with the multi-factor model, [HJMModel.calibrate] changes no
    expected forward price: after the call, whatever its outcome,
    [forward_dynamics] and [price_forward] answer what they answered
    before. *)
Theorem calibrate_keeps_prices
  (decompose : Z -> VolatilityModel.ndarray ->
               result (list (list R) * list R))
  (m : HJMModel.t MultiFactorVolatilityModel.t)
  (mn cn : string) (t0 t1 t : R) :
  let VM := MultiFactorVolatilityModel.Model decompose in
  let m' := fst (HJMModel.calibrate m) in
  snd (HJMModel.forward_dynamics mn cn t0 t1 m')
  = snd (HJMModel.forward_dynamics mn cn t0 t1 m)
  /\ snd (HJMModel.price_forward mn cn t m')
     = snd (HJMModel.price_forward mn cn t m).
Proof.
  intros VM m'.
  assert (H : HJMModel.markets m' = HJMModel.markets m
              /\ MultiFactorVolatilityModel.n_factors (HJMModel.vol_model m')
                 = MultiFactorVolatilityModel.n_factors (HJMModel.vol_model m)).
  { unfold m'. destruct (calibrate_result_state m) as [->|[mat ->]];
      [now split|].
    cbn [HJMModel.markets HJMModel.vol_model]. split; [reflexivity|].
    cbn [VolatilityModel.calibrate VM MultiFactorVolatilityModel.Model].
    unfold MultiFactorVolatilityModel.calibrate.
    destruct (PCA.fit _ _ _) as [pca' [u|e]]; reflexivity. }
  destruct H as [Hm Hn].
  rewrite !forward_dynamics_run, !price_forward_run. cbn [snd].
  rewrite (terminal_markets m m' mn cn Hm).
  split; [|reflexivity].
  destruct (terminal m mn cn) as [[c T]|e]; [|reflexivity].
  cbn [rbind fst snd VolatilityModel.sigma VM MultiFactorVolatilityModel.Model].
  unfold MultiFactorVolatilityModel.sigma. now rewrite Hn.
Qed.

(** X8 on the market "Gas" with three factors. *)
Lemma forward_dynamics_multifactor_witness :
  let decompose := fun (_ : Z) (_ : VolatilityModel.ndarray) =>
                     @Raise (list (list R) * list R) ValueError in
  let VM := MultiFactorVolatilityModel.Model decompose in
  let m := gas_model (MultiFactorVolatilityModel.__init__ 3) in
  PyDict.get (HJMModel.markets m) "Gas" = Some gas_market
  /\ PyDict.get (Market.curves gas_market) "forward" = Some gas_curve
  /\ ForwardCurve.__init__ [1; 2; 3; 4; 5] [3.0; 3.1; 3.05; 3.2; 3.3]
     = Ok gas_curve
  /\ HJMModel.forward_dynamics "Gas" "forward" 0 1 m
     = (m, Ok (ForwardCurve.get_forward gas_curve 5
               * exp (- 0.5 * (3 * exp (- (5 - 0)) * (1 - 0))))).
Proof.
  intros decompose VM m.
  assert (H1 : PyDict.get (HJMModel.markets m) "Gas" = Some gas_market)
    by reflexivity.
  assert (H2 : PyDict.get (Market.curves gas_market) "forward" = Some gas_curve)
    by reflexivity.
  assert (H3 : ForwardCurve.__init__ [1; 2; 3; 4; 5] [3.0; 3.1; 3.05; 3.2; 3.3]
               = Ok gas_curve) by reflexivity.
  refine (conj H1 (conj H2 (conj H3 _))).
  exact (forward_dynamics_multifactor decompose m "Gas" "forward" 0 1
           gas_market gas_curve _ _ H1 H2 H3).
Defined.
